(** * The relay endpoint of app.py ([api_proxy], route POST /api/proxy)

    A shallow embedding of the Flask view function [api_proxy] and of the
    Python values it manipulates, followed by the properties of the relay
    stated in the specification.

    Modelling choices.
    - Values decoded from JSON are the type [json]; Python [None] and JSON
      [null] are the same value [JNull], as after [json.loads].
    - A Python [dict] is a [gmap string _] (keys of a decoded JSON object
      are strings and unique); the insertion order of a dict is not
      observed by [api_proxy] and is not modelled.
    - [str] is [string]; [str.upper] and [str.lower] act on the ASCII
      letters, the alphabet of HTTP methods and header names.
    - [requests.request] is the outside world: an oracle [net] answers every
      outbound call with a response or raises; each invocation is recorded
      in the world, next to what [print] wrote.
    - A Python exception is a value [pyexn]; code that may raise lives in the
      monad [py], and [try ... except Exception] is [try_except].
    - [Response(...)] is what the view returns on success; building it
      raises on a header value that holds a line break, inside the [try]. *)

From Stdlib Require Import ZArith String Ascii Strings.Byte.
From Stdlib Require Import Floats.SpecFloat.
From Stdlib Require Import DecimalString DecimalZ.
From stdpp Require Import gmap strings list fin_maps.

Local Open Scope Z_scope.
Local Open Scope string_scope.

(** ** Python values *)

#[warnings="-register-all"]
Inductive json : Type :=
| JNull
| JBool (b : bool)
| JInt (z : Z)
| JFloat (f : spec_float)
| JStr (s : string)
| JList (l : list json)
| JDict (d : gmap string json).

(** [bool(v)]: the truth value Python gives an object. *)
Definition truthy (v : json) : bool :=
  match v with
  | JNull => false
  | JBool b => b
  | JInt z => negb (Z.eqb z 0)
  | JFloat (S754_zero _) => false
  | JFloat _ => true
  | JStr s => negb (Nat.eqb (String.length s) 0)
  | JList l => negb (Nat.eqb (List.length l) 0)
  | JDict d => negb (Nat.eqb (size d) 0)
  end.

(** [a or b] *)
Definition py_or (a b : json) : json := if truthy a then a else b.

(** [v is None] *)
Definition is_None (v : json) : bool :=
  match v with JNull => true | _ => false end.

(** [type(v).__name__] *)
Definition type_name (v : json) : string :=
  match v with
  | JNull => "NoneType"
  | JBool _ => "bool"
  | JInt _ => "int"
  | JFloat _ => "float"
  | JStr _ => "str"
  | JList _ => "list"
  | JDict _ => "dict"
  end.

(** ** Strings *)

Definition upper_ascii (c : ascii) : ascii :=
  let n := N_of_ascii c in
  if N.leb 97 n && N.leb n 122 then ascii_of_N (n - 32)%N else c.

Definition lower_ascii (c : ascii) : ascii :=
  let n := N_of_ascii c in
  if N.leb 65 n && N.leb n 90 then ascii_of_N (n + 32)%N else c.

Fixpoint str_map (f : ascii → ascii) (s : string) : string :=
  match s with
  | EmptyString => EmptyString
  | String c r => String (f c) (str_map f r)
  end.

(** [s.upper()] and [s.lower()] on ASCII text: the letters a to z and A to
    Z change case, every other byte stays. On text with other code points
    Python's mapping is wider (it turns the sharp s into SS, for one); such
    text is outside what is stated about these two functions. *)
Definition upper (s : string) : string := str_map upper_ascii s.
Definition lower (s : string) : string := str_map lower_ascii s.

(** Two names are the same up to the case of their letters. *)
Definition same_name (a b : string) : Prop := lower a = lower b.

(** Text of ASCII characters only. *)
Definition ascii_only (s : string) : Prop :=
  Forall (λ c, (N_of_ascii c < 128)%N) (list_ascii_of_string s).

(** ** Exceptions *)

Inductive pyexn : Type :=
| AttributeError (tyname attr : string)
| TypeError (msg : string)
| RaisedBy (cls msg : string).

(** [str(exc)] *)
Definition str_exc (e : pyexn) : string :=
  match e with
  | AttributeError ty attr =>
      "'" +:+ ty +:+ "' object has no attribute '" +:+ attr +:+ "'"
  | TypeError msg => msg
  | RaisedBy _ msg => msg
  end.

(** ** The world: the calls made through [requests] and the console *)

(** [requests.request(method, url, **kwargs)]; [kw_json = None] when the
    keyword [json] is not among [kwargs]. *)
Record outbound_call : Type := OutboundCall {
  call_method : string;
  call_url : json;
  kw_headers : json;
  kw_timeout : Z;
  kw_json : option json
}.

(** What the handler reads of a [requests.Response]: [resp.status_code],
    [resp.headers.items()] (names in the case the target sent them) and
    [resp.content]. *)
Record upstream : Type := Upstream {
  status_code : Z;
  resp_headers : gmap string string;
  content : list byte
}.

Inductive net_result : Type :=
| Responds (resp : upstream)
| Fails (exc : pyexn).

Record world : Type := World {
  calls : list outbound_call;
  stdout : list string
}.

Definition idle : world := World [] [].

(** ** Computations that may raise *)

Inductive result (A : Type) : Type :=
| Ok (a : A)
| Raised (e : pyexn).
Arguments Ok {A} a.
Arguments Raised {A} e.

Definition py (A : Type) : Type := world → result A * world.

#[global] Instance py_ret : MRet py := λ A a w, (Ok a, w).

#[global] Instance py_bind : MBind py := λ A B f m w,
  match m w with
  | (Ok a, w') => f a w'
  | (Raised e, w') => (Raised e, w')
  end.

Definition raise {A} (e : pyexn) : py A := λ w, (Raised e, w).

(** [try: body except Exception as exc: handler] *)
Definition try_except {A} (body : py A) (handler : pyexn → py A) : py A :=
  λ w, match body w with
       | (Ok a, w') => (Ok a, w')
       | (Raised e, w') => handler e w'
       end.

Definition py_print (line : string) : py unit :=
  λ w, (Ok tt, World (calls w) (stdout w ++ [line])).

(** [for x in xs: acc = step(acc, x)], stopping at the first exception. *)
Fixpoint for_each {A B} (step : A → B → py A) (acc : A) (xs : list B) : py A :=
  match xs with
  | [] => mret acc
  | x :: rest => acc' ← step acc x; for_each step acc' rest
  end.

(** ** Methods of the Python objects the handler touches *)

(** [d.get(key)] *)
Definition py_get (d : json) (key : string) : py json :=
  match d with
  | JDict m => mret (default JNull (m !! key))
  | _ => raise (AttributeError (type_name d) "get")
  end.

(** [v.upper()] *)
Definition py_upper (v : json) : py string :=
  match v with
  | JStr s => mret (upper s)
  | _ => raise (AttributeError (type_name v) "upper")
  end.

(** [o.pop(key, None)]; the object is mutated in place, so the updated
    object is what the computation yields. A list has a [pop], of at most
    one argument. *)
Definition py_pop (o : json) (key : string) : py json :=
  match o with
  | JDict m => mret (JDict (delete key m))
  | JList _ => raise (TypeError "pop expected at most 1 argument, got 2")
  | _ => raise (AttributeError (type_name o) "pop")
  end.

(** ** Flask *)

(** [request.get_json(silent=True)]: the decoded body, or [None] when the
    body is absent, is not announced as JSON, or does not parse. The
    request is given by the outcome of that decoding. *)
Definition get_json_silent (decoded : option json) : json :=
  default JNull decoded.

(** The two shapes of value the view returns: [jsonify(obj), status] and
    [Response(data, status=..., headers=...)]. *)
Inductive flask_return : Type :=
| Jsonify (obj : json) (status : Z)
| Response (data : list byte) (status : Z) (hdrs : gmap string string).

(** [{"error": msg}] *)
Definition error_object (msg : string) : json :=
  JDict {[ "error" := JStr msg ]}.

(** Building the [Response] object can fail: Werkzeug's [Headers] refuse a
    header value that holds a carriage return or a line feed and raise
    [ValueError] (the text is the one of Werkzeug 3). *)
Definition has_newline (s : string) : bool :=
  existsb (λ c, Ascii.eqb c "010" || Ascii.eqb c "013")
          (list_ascii_of_string s).

Definition buildable (hdrs : gmap string string) : bool :=
  bool_decide (map_Forall (λ _ v, has_newline v = false) hdrs).

Definition header_newline_error : pyexn :=
  RaisedBy "ValueError" "Header values must not contain newline characters.".

(** [Response(data, status=status, headers=hdrs)] *)
Definition py_Response (data : list byte) (status : Z)
    (hdrs : gmap string string) : py flask_return :=
  if buildable hdrs then mret (Response data status hdrs)
  else raise header_newline_error.

(** ** The view function *)

Definition excluded : gset string :=
  {[ "content-encoding"; "transfer-encoding"; "connection" ]}.

(** [{k: v for k, v in resp.headers.items() if k.lower() not in excluded}] *)
Definition response_headers (hs : gmap string string) : gmap string string :=
  filter (λ kv : string * string, lower kv.1 ∉ excluded) hs.

Definition stripped : list string :=
  ["host"; "Host"; "content-length"; "Content-Length"].

Section Relay.

(** The network, as [requests.request] shows it to the handler. *)
Variable net : outbound_call → net_result.

Definition requests_request (c : outbound_call) : py upstream :=
  λ w, let w' := World (calls w ++ [c]) (stdout w) in
       match net c with
       | Responds resp => (Ok resp, w')
       | Fails exc => (Raised exc, w')
       end.

Definition api_proxy (decoded : option json) : py flask_return :=
  let data := py_or (get_json_silent decoded) (JDict ∅) in
  target_url ← py_get data "targetUrl";
  m ← py_get data "method";
  method ← py_upper (py_or m (JStr "POST"));
  h ← py_get data "headers";
  let headers := py_or h (JDict ∅) in
  body ← py_get data "body";
  if negb (truthy target_url) then
    mret (Jsonify (error_object "targetUrl is required") 400)
  else
    headers ← for_each py_pop headers stripped;
    try_except
      (let json_kw :=
         if negb (String.eqb method "GET") && negb (is_None body)
         then Some body else None in
       resp ← requests_request
                (OutboundCall method target_url headers 120 json_kw);
       py_Response (content resp) (status_code resp)
                   (response_headers (resp_headers resp)))
      (λ exc,
         py_print ("[ERROR] Proxy Error: " +:+ str_exc exc);;
         mret (Jsonify (error_object (str_exc exc)) 500)).

(** One inbound request, served from an idle world. *)
Definition handle (decoded : option json) : result flask_return * world :=
  api_proxy decoded idle.

End Relay.

(** ** The payload as the caller wrote it *)

(** The field [key] of the inbound payload: [None] when the payload is not
    an object or the object has no such field. *)
Definition field (decoded : option json) (key : string) : option json :=
  match decoded with
  | Some (JDict m) => m !! key
  | _ => None
  end.

(** A field that is omitted, or supplied with a value Python counts as
    false ([null], the empty string, ...). *)
Definition blank (f : option json) : Prop :=
  match f with
  | None => True
  | Some v => truthy v = false
  end.

(** The payload gives the handler a mapping to read: nothing usable was
    decoded, or a false value, or an object. *)
Definition reads_as_object (decoded : option json) : Prop :=
  match decoded with
  | None => True
  | Some (JDict _) => True
  | Some v => truthy v = false
  end.

Definition string_or_blank (f : option json) : Prop :=
  match f with
  | Some (JStr _) => True
  | _ => blank f
  end.

Definition object_or_blank (f : option json) : Prop :=
  match f with
  | Some (JDict _) => True
  | _ => blank f
  end.

(** ** Sample targets and payloads *)

Definition bytes_of (s : string) : list byte := list_byte_of_string s.

(** A target that answers every call with 404 and a gzip marker. *)
Definition net_404 : outbound_call → net_result := λ _,
  Responds (Upstream 404
              {[ "Content-Encoding" := "gzip"; "X-Trace" := "t1" ]}
              (bytes_of "{'msg':'nf'}")).



(** A target that cannot be reached. *)
Definition net_down : outbound_call → net_result := λ _,
  Fails (RaisedBy "ConnectionError" "connection refused").

Definition example_url : json := JStr "http://example.test/x".

(** [{targetUrl: "http://example.test/x", method: "get", body: {"a": 1}}] *)
Definition scenario_get : option json :=
  Some (JDict {[ "targetUrl" := example_url; "method" := JStr "get";
                 "body" := JDict {[ "a" := JInt 1 ]} ]}).

(** ** What the handler does, read off the payload's fields

    The functions below describe the outbound call in terms of the fields
    of the payload; [served] lists the ways one request can end. Lemma
    [handle_served] shows that [handle] always ends in one of them. *)

Definition method_sent (f : option json) : string :=
  match f with
  | Some (JStr s) => if truthy (JStr s) then upper s else "POST"
  | _ => "POST"
  end.

Definition strip (hs : gmap string json) : gmap string json :=
  foldl (λ acc key, delete key acc) hs stripped.

Definition headers_sent (f : option json) : gmap string json :=
  match f with
  | Some (JDict hs) => strip hs
  | _ => ∅
  end.

Definition json_sent (method : string) (f : option json) : option json :=
  match f with
  | Some b =>
      if negb (String.eqb method "GET") && negb (is_None b)
      then Some b else None
  | None => None
  end.

Definition call_sent (decoded : option json) (url : json) : outbound_call :=
  let method := method_sent (field decoded "method") in
  OutboundCall method url
    (JDict (headers_sent (field decoded "headers"))) 120
    (json_sent method (field decoded "body")).

(** The exception of [h.pop(key, None)] on an object that is no dict. *)
Definition pop_error (h : json) : pyexn :=
  match h with
  | JList _ => TypeError "pop expected at most 1 argument, got 2"
  | _ => AttributeError (type_name h) "pop"
  end.

Definition validation_failure : flask_return :=
  Jsonify (error_object "targetUrl is required") 400.

Definition transport_failure (exc : pyexn) : flask_return :=
  Jsonify (error_object (str_exc exc)) 500.

(** The reply to an answered call, and the console line that goes with it:
    the response relayed when it can be built, else the 500 reply of the
    [ValueError] caught. *)
Definition relayed (resp : upstream) : flask_return :=
  if buildable (response_headers (resp_headers resp))
  then Response (content resp) (status_code resp)
                (response_headers (resp_headers resp))
  else transport_failure header_newline_error.

Definition relayed_log (resp : upstream) : list string :=
  if buildable (response_headers (resp_headers resp)) then []
  else ["[ERROR] Proxy Error: " +:+ str_exc header_newline_error].

Inductive served (net : outbound_call → net_result) (decoded : option json)
  : result flask_return * world → Prop :=
| served_not_object v :
    decoded = Some v → truthy v = true → type_name v ≠ "dict" →
    served net decoded (Raised (AttributeError (type_name v) "get"), idle)
| served_bad_method v :
    reads_as_object decoded →
    field decoded "method" = Some v → truthy v = true →
    type_name v ≠ "str" →
    served net decoded (Raised (AttributeError (type_name v) "upper"), idle)
| served_no_target :
    reads_as_object decoded →
    string_or_blank (field decoded "method") →
    blank (field decoded "targetUrl") →
    served net decoded (Ok validation_failure, idle)
| served_bad_headers t h :
    reads_as_object decoded →
    string_or_blank (field decoded "method") →
    field decoded "targetUrl" = Some t → truthy t = true →
    field decoded "headers" = Some h → truthy h = true →
    type_name h ≠ "dict" →
    served net decoded (Raised (pop_error h), idle)
| served_answered t resp :
    reads_as_object decoded →
    string_or_blank (field decoded "method") →
    field decoded "targetUrl" = Some t → truthy t = true →
    object_or_blank (field decoded "headers") →
    net (call_sent decoded t) = Responds resp →
    served net decoded
      (Ok (relayed resp), World [call_sent decoded t] (relayed_log resp))
| served_failed t exc :
    reads_as_object decoded →
    string_or_blank (field decoded "method") →
    field decoded "targetUrl" = Some t → truthy t = true →
    object_or_blank (field decoded "headers") →
    net (call_sent decoded t) = Fails exc →
    served net decoded
      (Ok (transport_failure exc),
       World [call_sent decoded t]
             ["[ERROR] Proxy Error: " +:+ str_exc exc]).

(** The shape of payload on which the handler raises nothing. *)
Definition well_shaped (decoded : option json) : Prop :=
  reads_as_object decoded ∧
  string_or_blank (field decoded "method") ∧
  (blank (field decoded "targetUrl") ∨
   object_or_blank (field decoded "headers")).

(** Payloads on which the handler is examined below. *)

(** [{"method": 5}] *)
Definition payload_numeric_method : option json :=
  Some (JDict {[ "method" := JInt 5 ]}).

(** [[1]] *)
Definition payload_array : option json := Some (JList [JInt 1]).

(** [{"targetUrl": "http://example.test/x", "headers": "x"}] *)
Definition payload_text_headers : option json :=
  Some (JDict {[ "targetUrl" := example_url; "headers" := JStr "x" ]}).

(** [{"targetUrl": "http://example.test/x", "headers": {"HOST": "evil.test"}}] *)
Definition payload_shouting_host : option json :=
  Some (JDict {[ "targetUrl" := example_url;
                 "headers" := JDict {[ "HOST" := JStr "evil.test" ]} ]}).

(** [{"targetUrl": "http://example.test/x", "method": ""}] *)
Definition payload_empty_method : option json :=
  Some (JDict {[ "targetUrl" := example_url; "method" := JStr EmptyString ]}).

(** [{"targetUrl": "http://example.test/x", "method": "put", "headers": null,
      "body": {"a": 1}}] *)
Definition payload_put : option json :=
  Some (JDict {[ "targetUrl" := example_url; "method" := JStr "put";
                 "headers" := JNull; "body" := JDict {[ "a" := JInt 1 ]} ]}).

(** [{"targetUrl": "http://example.test/x", "method": null}] *)
Definition payload_null_method : option json :=
  Some (JDict {[ "targetUrl" := example_url; "method" := JNull ]}).

(** The calls the handler makes for [scenario_get] and [payload_put]. *)
Definition call_get : outbound_call :=
  OutboundCall "GET" example_url (JDict ∅) 120 None.

Definition call_put : outbound_call :=
  OutboundCall "PUT" example_url (JDict ∅) 120
    (Some (JDict {[ "a" := JInt 1 ]})).

(** [{"targetUrl": "http://example.test/x",
      "headers": {"Host": "a.test", "X-Api-Key": "k"}}] *)
Definition payload_with_headers : option json :=
  Some (JDict {[ "targetUrl" := example_url;
                 "headers" := JDict {[ "Host" := JStr "a.test";
                                       "X-Api-Key" := JStr "k" ]} ]}).

Definition call_with_headers : outbound_call :=
  OutboundCall "POST" example_url (JDict {[ "X-Api-Key" := JStr "k" ]}) 120 None.

(** [{"targetUrl": "http://example.test/x", "method": "gEt", "body": 0}] *)
Definition payload_mixed_get : option json :=
  Some (JDict {[ "targetUrl" := example_url; "method" := JStr "gEt";
                 "body" := JInt 0 ]}).

(** [{"targetUrl": "http://example.test/x", "method": ["get"]}] *)
Definition payload_list_method : option json :=
  Some (JDict {[ "targetUrl" := example_url;
                 "method" := JList [JStr "get"] ]}).

(** [{"targetUrl": "http://example.test/x", "headers": [1]}] *)
Definition payload_list_headers : option json :=
  Some (JDict {[ "targetUrl" := example_url; "headers" := JList [JInt 1] ]}).

(** [scenario_get] with a field the handler does not know. *)
Definition scenario_get_tagged : option json :=
  Some (JDict {[ "targetUrl" := example_url; "method" := JStr "get";
                 "body" := JDict {[ "a" := JInt 1 ]};
                 "trace" := JStr "t-17" ]}).

(** ** The bootstrap: [main], [open_browser], [print_banner]

    The process around the relay. Its collaborators are the machine it
    runs on: the files next to the program, the socket layer behind
    [find_free_port], the Flask server behind [app.run], the keyboard
    behind [input], and the launchers of [open_browser]. Each may return or
    raise; what the bootstrap does is the trace of [event]s it leaves.
    [print] is taken to return. Text outside ASCII is held as its UTF-8
    bytes. *)

(** What a call may raise: [except Exception] catches the last kind only.
    [SystemExit] is what [app.run] leaves with when its port is taken. *)
Inductive signal : Type :=
| KeyboardInterrupt
| SystemExit (code : Z)
| Exception (exc : pyexn).

Inductive outcome (A : Type) : Type :=
| Returns (a : A)
| Throws (s : signal).
Arguments Returns {A} a.
Arguments Throws {A} s.

Inductive event : Type :=
| Print (text : string)
| Input (prompt : string)
| FindFreePort
| ThreadStart (url : string) (delay : spec_float)
| AppRun (host : string) (port : Z) (debug threaded use_reloader : bool)
| Sleep (delay : spec_float)
| OsSystem (command : string)
| WebbrowserOpen (url : string).

Record machine : Type := Machine {
  (** [(app_dir / name).exists()] *)
  path_exists : string → bool;
  (** [find_free_port()]: the port the socket layer hands out, or the
      error of [bind], [listen] or [getsockname]. *)
  find_free_port : outcome Z;
  (** [app.run(host=..., port=..., ...)], which returns when the server
      stops. *)
  app_run : string → Z → outcome unit;
  (** [input(prompt)], by the number of prompts answered before. *)
  input : nat → outcome string;
  (** [platform.system()] *)
  platform_system : string;
  (** [os.system(command)], giving the exit status. *)
  os_system : string → outcome Z;
  (** [webbrowser.open(url)] *)
  webbrowser_open : string → outcome bool;
  (** [time.sleep(delay)], which raises on a delay that is negative, not a
      number or too large. *)
  time_sleep : spec_float → outcome unit
}.

Definition io (A : Type) : Type := list event → outcome A * list event.

#[global] Instance io_ret : MRet io := λ A a t, (Returns a, t).

#[global] Instance io_bind : MBind io := λ A B f m t,
  match m t with
  | (Returns a, t') => f a t'
  | (Throws s, t') => (Throws s, t')
  end.

(** An effect: it is recorded, then returns or raises. *)
Definition effect {A} (e : event) (o : outcome A) : io A :=
  λ t, (o, (t ++ [e])%list).

Definition print (text : string) : io unit := effect (Print text) (Returns tt).

Definition prompts_before (t : list event) : nat :=
  length (List.filter (λ e, match e with Input _ => true | _ => false end) t).

(** [try: body except Exception as exc: handler] *)
Definition try_except_Exception {A}
    (body : io A) (handler : pyexn → io A) : io A :=
  λ t, match body t with
       | (Throws (Exception exc), t') => handler exc t'
       | other => other
       end.

(** [try: body except KeyboardInterrupt: h1 except Exception as exc: h2] *)
Definition try_except_both {A}
    (body : io A) (on_interrupt : io A) (on_exception : pyexn → io A) : io A :=
  λ t, match body t with
       | (Throws KeyboardInterrupt, t') => on_interrupt t'
       | (Throws (Exception exc), t') => on_exception exc t'
       | other => other
       end.

(** [sep.join(xs)] *)
Fixpoint join (sep : string) (xs : list string) : string :=
  match xs with
  | [] => EmptyString
  | [x] => x
  | x :: rest => x +:+ sep +:+ join sep rest
  end.

(** [s * n] *)
Fixpoint str_repeat (s : string) (n : nat) : string :=
  match n with
  | O => EmptyString
  | S k => s +:+ str_repeat s k
  end.

(** [str(n)] for an [int] *)
Definition str_int (n : Z) : string := NilZero.string_of_int (Z.to_int n).

(** The double quote, as a string. *)
Definition dquote : string := String "034"%char EmptyString.

Definition newline : string := String "010"%char EmptyString.

Definition banner : string := "
    ████████   ██  ██████  ██   ██  ████████
    ╚══██╔══   ██ ██    ██ ████ ██ ██╔═════╝
       ██║ ██████ ██    ██ ██╔█ ██ ██║  ███╗
       ██║ ╚════██ ██    ██ ██║╚██ ██║   ╚██
       ██║      ██ ██    ██ ██║ ╚█ ╚███████║
       ╚═╝      ╚═ ╚═    ╚═ ╚═╝  ╚  ╚══════╝

    * NANO BANANA - nanobanana-pro 多图合成工具 v2.0.0
    ===================================================
    ".

Definition required_files : list string :=
  ["index.html"; "script.js"; "api.js"; "utils.js"; "styles.css"].

(** The default of [open_browser]'s [delay], 1.5. *)
Definition delay_default : spec_float := S754_finite false 3 (-1).

Section Bootstrap.

Variable m : machine.

(** The body of the thread [open_browser] starts. *)
Definition _open (url : string) (delay : spec_float) : io unit :=
  effect (Sleep delay) (time_sleep m delay);;
  try_except_Exception
    (let system := platform_system m in
     if String.eqb system "Darwin" then
       let command := "open " +:+ dquote +:+ url +:+ dquote in
       effect (OsSystem command) (os_system m command);; mret tt
     else if String.eqb system "Windows" then
       let command :=
         "start " +:+ dquote +:+ dquote +:+ " " +:+ dquote +:+ url +:+ dquote in
       effect (OsSystem command) (os_system m command);; mret tt
     else if String.eqb system "Linux" then
       let command := "xdg-open " +:+ dquote +:+ url +:+ dquote in
       effect (OsSystem command) (os_system m command);; mret tt
     else
       effect (WebbrowserOpen url) (webbrowser_open m url);; mret tt)
    (λ exc,
       print ("[WARN] 无法自动打开浏览器: " +:+ str_exc exc);;
       print ("[INFO] 请手动访问: " +:+ url)).

(** [open_browser(url, delay)]: a daemon thread is started on [_open]; the
    thread runs beside the caller and is not followed here. *)
Definition open_browser (url : string) (delay : spec_float) : io unit :=
  effect (ThreadStart url delay) (Returns tt).

Definition print_banner : io unit := print banner.

Definition py_input (prompt : string) : io string :=
  λ t, (input m (prompts_before t), (t ++ [Input prompt])%list).

Definition main : io Z :=
  try_except_both
    (print_banner;;
     let missing :=
       List.filter (λ f, negb (path_exists m f)) required_files in
     if negb (Nat.eqb (length missing) 0) then
       print ("[ERROR] 缺少必要文件: " +:+ join ", " missing);;
       print "[HINT] 请确认所有前端文件和 exe 在同一目录中。";;
       py_input "按回车键退出...";;
       mret 1
     else
       port ← effect FindFreePort (find_free_port m);
       let url := "http://localhost:" +:+ str_int port in
       print "[OK] 文件检查完成";;
       print "[INFO] 正在启动本地服务器...";;
       print ("[URL] 服务地址: " +:+ url);;
       print "[BROWSER] 浏览器将自动打开";;
       print "[STOP] 按 Ctrl+C 停止服务";;
       print (str_repeat "=" 50);;
       open_browser url delay_default;;
       effect (AppRun "127.0.0.1" port false true false)
              (app_run m "127.0.0.1" port);;
       mret 0)
    (print (newline +:+ "[EXIT] 感谢使用 Nano Banana");;
     mret 0)
    (λ exc,
       print ("[ERROR] 服务器启动失败: " +:+ str_exc exc);;
       py_input "按回车键退出...";;
       mret 1).

End Bootstrap.

(** ** Sample machines *)

(** Every file is there, port 50123 is free, the server runs until it is
    stopped, the keyboard answers. *)
Definition machine_ready : machine :=
  Machine (λ _, true) (Returns 50123) (λ _ _, Returns tt)
          (λ _, Returns EmptyString) "Linux" (λ _, Returns 0)
          (λ _, Returns true) (λ _, Returns tt).

(** [api.js] and [styles.css] are not there. *)
Definition machine_incomplete : machine :=
  Machine (λ f, negb (String.eqb f "api.js" || String.eqb f "styles.css"))
          (Returns 50123) (λ _ _, Returns tt)
          (λ _, Returns EmptyString) "Linux" (λ _, Returns 0)
          (λ _, Returns true) (λ _, Returns tt).

(** The port is taken by the time the server binds it: [app.run] leaves
    with [SystemExit(1)]. *)
Definition machine_port_taken : machine :=
  Machine (λ _, true) (Returns 50123)
          (λ _ _, Throws (SystemExit 1))
          (λ _, Returns EmptyString) "Linux" (λ _, Returns 0)
          (λ _, Returns true) (λ _, Returns tt).


(** ** Reading a trace of the bootstrap *)

(** The events by which the bootstrap starts something: probing a port,
    starting the browser thread, running the server. *)
Definition is_startup (e : event) : bool :=
  match e with
  | FindFreePort | ThreadStart _ _ | AppRun _ _ _ _ _ => true
  | _ => false
  end.

Definition is_launch (e : event) : bool :=
  match e with
  | OsSystem _ | WebbrowserOpen _ => true
  | _ => false
  end.

(** The required files that are not there, in the order of the list. *)
Definition missing_files (m : machine) : list string :=
  List.filter (λ f, negb (path_exists m f)) required_files.

Definition prompt_exit : string := "按回车键退出...".


Definition farewell : string := newline +:+ "[EXIT] 感谢使用 Nano Banana".

Definition startup_failed (exc : pyexn) : string :=
  "[ERROR] 服务器启动失败: " +:+ str_exc exc.

Definition local_url (port : Z) : string := "http://localhost:" +:+ str_int port.

(** What [main] has left on the trace when it stops for missing files, and
    when it hands over to the server. *)
Definition trace_missing (m : machine) : list event :=
  [Print banner;
   Print ("[ERROR] 缺少必要文件: " +:+ join ", " (missing_files m));
   Print "[HINT] 请确认所有前端文件和 exe 在同一目录中。";
   Input prompt_exit].

Definition trace_serving (port : Z) : list event :=
  [Print banner; FindFreePort;
   Print "[OK] 文件检查完成";
   Print "[INFO] 正在启动本地服务器...";
   Print ("[URL] 服务地址: " +:+ local_url port);
   Print "[BROWSER] 浏览器将自动打开";
   Print "[STOP] 按 Ctrl+C 停止服务";
   Print (str_repeat "=" 50);
   ThreadStart (local_url port) delay_default;
   AppRun "127.0.0.1" port false true false].

(** The end of [main] once something raised inside its [try]: the farewell
    and 0 on an interrupt, the error line, the prompt and 1 on an
    [Exception]; a [SystemExit] is caught by neither clause and leaves
    [main] as it is. *)
Definition main_handler (m : machine) (s : signal) (t : list event)
  : outcome Z * list event :=
  match s with
  | KeyboardInterrupt => (Returns 0, (t ++ [Print farewell])%list)
  | SystemExit code => (Throws (SystemExit code), t)
  | Exception exc =>
      (match input m (prompts_before t) with
       | Returns _ => Returns 1
       | Throws s' => Throws s'
       end,
       (t ++ [Print (startup_failed exc); Input prompt_exit])%list)
  end.

(** * Properties *)

(** ** Sanity checks on the samples *)

Example upper_get : upper "get" = "GET".
Proof. reflexivity. Qed.

Example lower_mixed : lower "Content-Encoding" = "content-encoding".
Proof. reflexivity. Qed.

Example scenario_get_calls :
  calls (handle net_404 scenario_get).2
  = [OutboundCall "GET" example_url (JDict ∅) 120 None].
Proof. vm_compute. reflexivity. Qed.

Example scenario_empty_object :
  handle net_404 (Some (JDict ∅)) = (Ok validation_failure, idle).
Proof. reflexivity. Qed.

(** ** Python values *)

Lemma empty_dict_falsy (m : gmap string json) :
  truthy (JDict m) = false → m = ∅.
Proof.
  simpl. intros H. apply map_size_empty_inv.
  destruct (size m); [reflexivity | discriminate H].
Qed.

Lemma py_or_dict (m : gmap string json) :
  py_or (JDict m) (JDict ∅) = JDict m.
Proof.
  unfold py_or. destruct (truthy (JDict m)) eqn:E; [reflexivity|].
  by rewrite (empty_dict_falsy m E).
Qed.

Lemma for_each_pop (hs : gmap string json) (keys : list string) (w : world) :
  for_each py_pop (JDict hs) keys w
  = (Ok (JDict (foldl (λ acc key, delete key acc) hs keys)), w).
Proof.
  revert hs. induction keys as [|key keys IH]; intros hs; [reflexivity|].
  cbn [for_each]. unfold mbind, py_bind. cbn [py_pop mret py_ret foldl].
  apply IH.
Qed.

Lemma pop_not_dict (h : json) (key : string) (w : world) :
  type_name h ≠ "dict" → py_pop h key w = (Raised (pop_error h), w).
Proof. destruct h; intros Hty; try reflexivity. by destruct Hty. Qed.

(** The mapping the handler reads, whenever it reads one. *)
Lemma data_mapping (decoded : option json) :
  reads_as_object decoded →
  ∃ m, py_or (get_json_silent decoded) (JDict ∅) = JDict m
       ∧ ∀ key, field decoded key = m !! key.
Proof.
  destruct decoded as [v|];
    cbn [reads_as_object get_json_silent default from_option id].
  - destruct v as [ | b | z | f | s | l | m]; intros Hv;
      try (exists ∅; unfold py_or; rewrite Hv; split;
           [reflexivity | intros key; by rewrite lookup_empty]).
    exists m. split; [apply py_or_dict | reflexivity].
  - intros _. exists ∅. split; [reflexivity|].
    intros key. by rewrite lookup_empty.
Qed.

Lemma data_not_mapping (v : json) :
  truthy v = true → type_name v ≠ "dict" →
  py_or (get_json_silent (Some v)) (JDict ∅) = v.
Proof.
  intros Hv _. unfold py_or.
  cbn [get_json_silent default from_option id]. by rewrite Hv.
Qed.

Lemma reads_as_object_cases (decoded : option json) :
  reads_as_object decoded
  ∨ ∃ v, decoded = Some v ∧ truthy v = true ∧ type_name v ≠ "dict".
Proof.
  destruct decoded as [v|]; [|by left].
  destruct (truthy v) eqn:Hv.
  - destruct v; try (right; eexists; split; [reflexivity|]; split;
                     [exact Hv | discriminate]).
    by left.
  - left. by destruct v.
Qed.

(** ** The stages of the handler *)

Lemma string_or_blank_cases (f : option json) :
  string_or_blank f
  ∨ ∃ v, f = Some v ∧ truthy v = true ∧ type_name v ≠ "str".
Proof.
  destruct f as [v|]; [|by left].
  destruct (truthy v) eqn:Hv.
  - destruct v; try (right; eexists; split; [reflexivity|]; split;
                     [exact Hv | discriminate]).
    by left.
  - left. by destruct v.
Qed.

Lemma object_or_blank_cases (f : option json) :
  object_or_blank f
  ∨ ∃ v, f = Some v ∧ truthy v = true ∧ type_name v ≠ "dict".
Proof.
  destruct f as [v|]; [|by left].
  destruct (truthy v) eqn:Hv.
  - destruct v; try (right; eexists; split; [reflexivity|]; split;
                     [exact Hv | discriminate]).
    by left.
  - left. by destruct v.
Qed.

Lemma blank_cases (f : option json) :
  blank f ∨ ∃ v, f = Some v ∧ truthy v = true.
Proof.
  destruct f as [v|]; [|by left]. cbn [blank].
  destruct (truthy v) eqn:Hv; [right; by exists v | by left].
Qed.

Lemma method_stage (f : option json) (w : world) :
  string_or_blank f →
  py_upper (py_or (default JNull f) (JStr "POST")) w = (Ok (method_sent f), w).
Proof.
  destruct f as [v|]; [|reflexivity].
  cbn [default from_option id]. unfold py_or.
  destruct v as [ | b | z | f | s | l | m]; cbn [string_or_blank blank];
    try (intros ->; reflexivity).
  intros _. cbn [method_sent]. by destruct (truthy (JStr s)).
Qed.

Lemma method_stage_bad (v : json) (w : world) :
  truthy v = true → type_name v ≠ "str" →
  py_upper (py_or (default JNull (Some v)) (JStr "POST")) w
  = (Raised (AttributeError (type_name v) "upper"), w).
Proof.
  intros Hv Hty. cbn [default from_option id]. unfold py_or. rewrite Hv.
  destruct v; try reflexivity. by destruct Hty.
Qed.

Lemma headers_stage (f : option json) (w : world) :
  object_or_blank f →
  for_each py_pop (py_or (default JNull f) (JDict ∅)) stripped w
  = (Ok (JDict (headers_sent f)), w).
Proof.
  destruct f as [v|]; [|reflexivity].
  cbn [default from_option id].
  destruct v as [ | b | z | f | s | l | m]; cbn [object_or_blank blank];
    try (unfold py_or; intros ->; reflexivity).
  intros _. rewrite py_or_dict. apply for_each_pop.
Qed.

Lemma headers_stage_bad (h : json) (w : world) :
  truthy h = true → type_name h ≠ "dict" →
  for_each py_pop (py_or (default JNull (Some h)) (JDict ∅)) stripped w
  = (Raised (pop_error h), w).
Proof.
  intros Hh Hty. cbn [default from_option id]. unfold py_or. rewrite Hh.
  cbn [stripped for_each]. unfold mbind, py_bind.
  by rewrite pop_not_dict.
Qed.

Lemma json_stage (method : string) (f : option json) :
  (if negb (String.eqb method "GET") && negb (is_None (default JNull f))
   then Some (default JNull f) else None) = json_sent method f.
Proof.
  destruct f as [b|]; [reflexivity|].
  cbn. by rewrite andb_false_r.
Qed.

(** ** Every request ends in one of the ways of [served] *)

Lemma handle_served net decoded : served net decoded (handle net decoded).
Proof.
  destruct (reads_as_object_cases decoded) as [Hobj | (v & -> & Hv & Hty)].
  2: { unfold handle, api_proxy. rewrite (data_not_mapping v Hv Hty).
       replace (py_get v "targetUrl") with
         (raise (A:=json) (AttributeError (type_name v) "get"))
         by (destruct v; try reflexivity; by destruct Hty).
       by apply served_not_object. }
  destruct (data_mapping decoded Hobj) as (m & Hdata & Hfield).
  unfold handle, api_proxy. rewrite Hdata.
  unfold mbind, py_bind. cbn [py_get mret py_ret].
  rewrite <- !Hfield. clear m Hdata Hfield.
  destruct (string_or_blank_cases (field decoded "method"))
    as [Hm | (mv & Hm & Hmv & Hmty)].
  2: { rewrite Hm, method_stage_bad by assumption.
       by apply served_bad_method. }
  rewrite method_stage by assumption.
  destruct (blank_cases (field decoded "targetUrl")) as [Ht | (t & Ht & Htv)].
  { replace (truthy (default JNull (field decoded "targetUrl"))) with false
      by (destruct (field decoded "targetUrl"); [by rewrite Ht | reflexivity]).
    by apply served_no_target. }
  rewrite Ht. cbn [default from_option id]. rewrite Htv. cbn [negb].
  destruct (object_or_blank_cases (field decoded "headers"))
    as [Hh | (h & Hh & Hhv & Hhty)].
  2: { rewrite Hh, headers_stage_bad by assumption.
       by eapply served_bad_headers. }
  rewrite headers_stage by assumption.
  rewrite json_stage. fold (call_sent decoded t).
  unfold try_except, requests_request.
  destruct (net (call_sent decoded t)) as [resp | exc] eqn:Hnet.
  - replace (py_Response _ _ _ _) with
      (if buildable (response_headers (resp_headers resp))
       then (Ok (Response (content resp) (status_code resp)
                          (response_headers (resp_headers resp))),
             World [call_sent decoded t] [])
       else (Raised header_newline_error, World [call_sent decoded t] []))
      by (unfold py_Response; by destruct (buildable _)).
    pose proof (served_answered net decoded t resp Hobj Hm Ht Htv Hh Hnet)
      as Hs.
    unfold relayed, relayed_log in Hs.
    by destruct (buildable (response_headers (resp_headers resp))).
  - by apply served_failed.
Qed.

(** ** Truth values against shapes *)

Lemma blank_truthy (v : json) : blank (Some v) → truthy v = true → False.
Proof. cbn [blank]. congruence. Qed.

Lemma string_or_blank_truthy (v : json) :
  string_or_blank (Some v) → truthy v = true → type_name v = "str".
Proof.
  destruct v; try reflexivity; intros Hb Hv; destruct (blank_truthy _ Hb Hv).
Qed.

Lemma object_or_blank_truthy (v : json) :
  object_or_blank (Some v) → truthy v = true → type_name v = "dict".
Proof.
  destruct v; try reflexivity; intros Hb Hv; destruct (blank_truthy _ Hb Hv).
Qed.

Lemma reads_as_object_truthy (v : json) :
  reads_as_object (Some v) → truthy v = true → type_name v = "dict".
Proof.
  destruct v; try reflexivity; cbn [reads_as_object]; congruence.
Qed.

(** ** What a recorded call tells *)

(** The handler calls out at most once; a recorded call fixes the payload's
    shape, the call itself and the whole outcome. *)
Lemma call_inv net decoded c :
  In c (calls (handle net decoded).2) →
  ∃ t, reads_as_object decoded
       ∧ string_or_blank (field decoded "method")
       ∧ field decoded "targetUrl" = Some t ∧ truthy t = true
       ∧ object_or_blank (field decoded "headers")
       ∧ c = call_sent decoded t
       ∧ calls (handle net decoded).2 = [c]
       ∧ (handle net decoded).1
         = match net c with
           | Responds resp => Ok (relayed resp)
           | Fails exc => Ok (transport_failure exc)
           end.
Proof.
  pose proof (handle_served net decoded) as Hs.
  remember (handle net decoded) as out eqn:Hout. clear Hout.
  destruct Hs as [v Hd Hv Hty | v Hobj Hm Hv Hty | Hobj Hm Ht
                 | t h Hobj Hm Ht Htv Hh Hhv Hty
                 | t resp Hobj Hm Ht Htv Hh Hnet
                 | t exc Hobj Hm Ht Htv Hh Hnet];
    cbn [snd fst calls idle]; intros Hin;
    try (by destruct Hin).
  - destruct Hin as [<- | []]. exists t. by rewrite Hnet.
  - destruct Hin as [<- | []]. exists t. by rewrite Hnet.
Qed.

Lemma valid_request_is_sent net decoded t :
  reads_as_object decoded →
  string_or_blank (field decoded "method") →
  object_or_blank (field decoded "headers") →
  field decoded "targetUrl" = Some t → truthy t = true →
  calls (handle net decoded).2 = [call_sent decoded t].
Proof.
  intros Hobj Hm Hh Ht Htv.
  pose proof (handle_served net decoded) as Hs.
  inversion Hs as [v Hd Hv Hty | v _ Hm' Hv Hty | _ _ Ht'
                  | t' h _ _ Ht' _ Hh' Hhv Hty
                  | t' resp _ _ Ht' _ _ Hnet
                  | t' exc _ _ Ht' _ _ Hnet].
  - subst decoded. destruct Hty. by apply reads_as_object_truthy.
  - rewrite Hm' in Hm. destruct Hty. by apply string_or_blank_truthy.
  - rewrite Ht in Ht'. destruct (blank_truthy t Ht' Htv).
  - rewrite Hh' in Hh. destruct Hty. by apply object_or_blank_truthy.
  - cbn. congruence.
  - cbn. congruence.
Qed.

(** ** Validation of the target *)

Lemma blank_target_no_call net decoded :
  blank (field decoded "targetUrl") → calls (handle net decoded).2 = [].
Proof.
  intros Hblank.
  destruct (calls (handle net decoded).2) as [|c rest] eqn:Hcalls;
    [reflexivity|].
  destruct (call_inv net decoded c) as (t & _ & _ & Ht & Htv & _).
  { rewrite Hcalls. by left. }
  rewrite Ht in Hblank. destruct (blank_truthy t Hblank Htv).
Qed.

Lemma blank_target_rejected net decoded :
  reads_as_object decoded →
  string_or_blank (field decoded "method") →
  blank (field decoded "targetUrl") →
  handle net decoded = (Ok validation_failure, idle).
Proof.
  intros Hobj Hm Hblank.
  pose proof (handle_served net decoded) as Hs.
  inversion Hs as [v Hd Hv Hty | v _ Hm' Hv Hty | _ _ _
                  | t h _ _ Ht Htv _ _ _
                  | t resp _ _ Ht Htv _ _
                  | t exc _ _ Ht Htv _ _].
  - subst decoded. destruct Hty. by apply reads_as_object_truthy.
  - rewrite Hm' in Hm. destruct Hty. by apply string_or_blank_truthy.
  - reflexivity.
  - rewrite Ht in Hblank. destruct (blank_truthy t Hblank Htv).
  - rewrite Ht in Hblank. destruct (blank_truthy t Hblank Htv).
  - rewrite Ht in Hblank. destruct (blank_truthy t Hblank Htv).
Qed.

(** C1 (as amended). When [targetUrl] is missing, null, empty or any other
    false value, no outbound call is made, whatever the rest of the payload;
    and when moreover the payload reads as an object and its [method] is
    omitted, false or a string, the handler returns exactly
    [{error: "targetUrl is required"}] with status 400, leaving the world
    untouched. *)
Theorem C1_missing_target_rejected_locally net decoded :
  blank (field decoded "targetUrl") →
  calls (handle net decoded).2 = []
  ∧ (reads_as_object decoded →
     string_or_blank (field decoded "method") →
     handle net decoded
     = (Ok (Jsonify (error_object "targetUrl is required") 400), idle)).
Proof.
  intros Hblank. split.
  - by apply blank_target_no_call.
  - intros Hobj Hm. by apply blank_target_rejected.
Qed.

Lemma C1_witness :
  blank (field (Some (JDict {[ "method" := JStr "get" ]})) "targetUrl")
  ∧ calls (handle net_404 (Some (JDict {[ "method" := JStr "get" ]}))).2 = []
  ∧ handle net_404 (Some (JDict {[ "method" := JStr "get" ]}))
    = (Ok (Jsonify (error_object "targetUrl is required") 400), idle).
Proof.
  assert (Hblank :
    blank (field (Some (JDict {[ "method" := JStr "get" ]})) "targetUrl"))
    by (vm_compute; exact I).
  split; [exact Hblank|].
  destruct (C1_missing_target_rejected_locally net_404
              (Some (JDict {[ "method" := JStr "get" ]})) Hblank)
    as [Hcalls Hret].
  split; [exact Hcalls|].
  apply Hret; vm_compute; exact I.
Defined.

(** C1 as stated fails: on [{"method": 5}] and on [[1]] the target is
    missing, and the handler raises instead of answering 400. *)
Lemma C1_counterexample :
  (blank (field payload_numeric_method "targetUrl")
   ∧ (handle net_404 payload_numeric_method).1
     = Raised (AttributeError "int" "upper")
   ∧ (handle net_404 payload_numeric_method).1
     ≠ Ok (Jsonify (error_object "targetUrl is required") 400))
  ∧ (blank (field payload_array "targetUrl")
     ∧ (handle net_404 payload_array).1
       = Raised (AttributeError "list" "get")
     ∧ (handle net_404 payload_array).1
       ≠ Ok (Jsonify (error_object "targetUrl is required") 400)).
Proof.
  repeat split; intros Heq; vm_compute in Heq; discriminate Heq.
Qed.

(** ** The filter on response headers *)

Lemma excluded_names (name : string) :
  name ∈ excluded
  ↔ name = "content-encoding" ∨ name = "transfer-encoding"
    ∨ name = "connection".
Proof.
  unfold excluded.
  rewrite !elem_of_union, !elem_of_singleton. tauto.
Qed.

Lemma excluded_same_name (k : string) :
  lower k ∈ excluded
  ↔ same_name k "content-encoding" ∨ same_name k "transfer-encoding"
    ∨ same_name k "connection".
Proof. apply excluded_names. Qed.

Lemma response_headers_lookup (hs : gmap string string) (k : string) :
  response_headers hs !! k
  = if decide (lower k ∈ excluded) then None else hs !! k.
Proof.
  unfold response_headers. case_decide as Hk.
  - apply map_lookup_filter_None. right. intros v _ Hout. by apply Hout.
  - destruct (hs !! k) as [v|] eqn:Hv.
    + by apply map_lookup_filter_Some.
    + apply map_lookup_filter_None. by left.
Qed.

(** C3. The filter on response headers removes every header named
    [content-encoding], [transfer-encoding] or [connection] in any casing,
    keeps every other header with its name and value, and applying it twice
    is applying it once. *)
Theorem C3_response_filter (hs : gmap string string) :
  (∀ k, same_name k "content-encoding" ∨ same_name k "transfer-encoding"
        ∨ same_name k "connection" →
        response_headers hs !! k = None)
  ∧ (∀ k, ¬ (same_name k "content-encoding"
             ∨ same_name k "transfer-encoding"
             ∨ same_name k "connection") →
          response_headers hs !! k = hs !! k)
  ∧ response_headers (response_headers hs) = response_headers hs.
Proof.
  split; [|split].
  - intros k Hk. rewrite response_headers_lookup.
    apply excluded_same_name in Hk. by rewrite decide_True.
  - intros k Hk. rewrite response_headers_lookup.
    rewrite <- excluded_same_name in Hk. by rewrite decide_False.
  - apply map_eq. intros k. rewrite !response_headers_lookup.
    by case_decide.
Qed.

Lemma C3_witness :
  response_headers (resp_headers (Upstream 404
      {[ "CONTENT-ENCODING" := "gzip"; "X-Trace" := "t1" ]} []))
    !! "CONTENT-ENCODING" = None
  ∧ response_headers (resp_headers (Upstream 404
      {[ "CONTENT-ENCODING" := "gzip"; "X-Trace" := "t1" ]} []))
    !! "X-Trace" = Some "t1".
Proof.
  split.
  - apply (proj1 (C3_response_filter _)). left. reflexivity.
  - rewrite (proj1 (proj2 (C3_response_filter _))); [reflexivity|].
    intros [H | [H | H]]; discriminate H.
Defined.

(** ** Relaying the target's answer *)




(** ** The body of the outbound call *)

(** C6. On every outbound call: when the method sent is [GET] no [json]
    body is attached; and a body [b] is attached as the [json] keyword
    exactly when the method sent is not [GET] and the payload supplies the
    body [b], not null. *)
Theorem C6_body_attached_iff net decoded c :
  In c (calls (handle net decoded).2) →
  (call_method c = "GET" → kw_json c = None)
  ∧ (∀ b, kw_json c = Some b
          ↔ call_method c ≠ "GET"
            ∧ field decoded "body" = Some b ∧ b ≠ JNull).
Proof.
  intros Hin.
  destruct (call_inv net decoded c Hin) as (t & _ & _ & _ & _ & _ & -> & _).
  unfold call_sent. cbn [call_method kw_json].
  generalize (method_sent (field decoded "method")) as method.
  intros method. unfold json_sent.
  destruct (String.eqb_spec method "GET") as [Heq | Hne].
  - split.
    + intros _. by destruct (field decoded "body").
    + intros b. destruct (field decoded "body"); cbn [negb andb];
        split; try discriminate; intros [Hne _]; by destruct Hne.
  - split; [intros Heq; by destruct Hne|].
    intros b. destruct (field decoded "body") as [b'|]; cbn [negb andb].
    + destruct b'; cbn [is_None negb]; split;
        try (intros [= <-]; repeat split; [exact Hne | discriminate]);
        try (intros (_ & [= <-] & Hb); reflexivity || by destruct Hb);
        try discriminate.
    + split; [discriminate | intros (_ & Hb & _); discriminate Hb].
Qed.

Lemma C6_witness :
  (In call_get (calls (handle net_404 scenario_get).2)
   ∧ call_method call_get = "GET" ∧ kw_json call_get = None)
  ∧ (In call_put (calls (handle net_404 payload_put).2)
     ∧ kw_json call_put = Some (JDict {[ "a" := JInt 1 ]})).
Proof.
  assert (Hget : In call_get (calls (handle net_404 scenario_get).2))
    by (vm_compute; left; reflexivity).
  assert (Hput : In call_put (calls (handle net_404 payload_put).2))
    by (vm_compute; left; reflexivity).
  split.
  - split; [exact Hget|]. split; [reflexivity|].
    apply (proj1 (C6_body_attached_iff net_404 scenario_get call_get Hget)).
    reflexivity.
  - split; [exact Hput|].
    apply (proj2 (C6_body_attached_iff net_404 payload_put call_put Hput)).
    repeat split; intros Heq; vm_compute in Heq; discriminate Heq.
Defined.

(** ** The timeout *)

(** C9. Every outbound call carries the timeout of 120 seconds, and when
    the transport gives up on the call (the timeout expiring is one way)
    the handler answers [{error: <message>}] with status 500. *)
Theorem C9_timeout_bounded net decoded c :
  In c (calls (handle net decoded).2) →
  kw_timeout c = 120
  ∧ ∀ exc, net c = Fails exc →
           (handle net decoded).1
           = Ok (Jsonify (error_object (str_exc exc)) 500).
Proof.
  intros Hin.
  destruct (call_inv net decoded c Hin)
    as (t & _ & _ & _ & _ & _ & Hc & _ & Hret).
  split; [by rewrite Hc|].
  intros exc Hnet. by rewrite Hret, Hnet.
Qed.

Lemma C9_witness :
  In call_get (calls (handle net_down scenario_get).2)
  ∧ kw_timeout call_get = 120
  ∧ (handle net_down scenario_get).1
    = Ok (Jsonify (error_object "connection refused") 500).
Proof.
  assert (Hin : In call_get (calls (handle net_down scenario_get).2))
    by (vm_compute; left; reflexivity).
  destruct (C9_timeout_bounded net_down scenario_get call_get Hin)
    as [Htimeout Hfail].
  split; [exact Hin|]. split; [exact Htimeout|].
  apply (Hfail (RaisedBy "ConnectionError" "connection refused")).
  reflexivity.
Defined.

(** ** No exception leaves the handler on a well-shaped payload *)

Lemma well_shaped_iff_answered net decoded :
  well_shaped decoded ↔ ∃ r, (handle net decoded).1 = Ok r.
Proof.
  unfold well_shaped.
  destruct (handle_served net decoded)
    as [v Hd Hv Hty | v Hobj Hm Hv Hty | Hobj Hm Ht
       | t h Hobj Hm Ht Htv Hh Hhv Hty
       | t resp Hobj Hm Ht Htv Hh Hnet
       | t exc Hobj Hm Ht Htv Hh Hnet]; cbn [fst].
  - split; [|intros [r Hr]; discriminate Hr].
    intros (Hobj & _). subst decoded. destruct Hty.
    by apply reads_as_object_truthy.
  - split; [|intros [r Hr]; discriminate Hr].
    intros (_ & Hm' & _). rewrite Hm in Hm'. destruct Hty.
    by apply string_or_blank_truthy.
  - split; [by eexists | by auto].
  - split; [|intros [r Hr]; discriminate Hr].
    intros (_ & _ & [Hblank | Hh']).
    + rewrite Ht in Hblank. destruct (blank_truthy t Hblank Htv).
    + rewrite Hh in Hh'. destruct Hty. by apply object_or_blank_truthy.
  - split; [by eexists | by auto].
  - split; [by eexists | by auto].
Qed.

(** C7 (as amended). The handler returns a response, and raises nothing,
    exactly on the payloads that read as an object whose [method] is
    omitted, false or a string and whose [headers], when a target is given,
    are omitted, false or an object; and on every payload a failure of the
    outbound call becomes [{error: <message>}] with status 500. *)
Theorem C7_transport_failures_answered net decoded :
  (well_shaped decoded ↔ ∃ r, (handle net decoded).1 = Ok r)
  ∧ (∀ c exc,
       In c (calls (handle net decoded).2) → net c = Fails exc →
       (handle net decoded).1
       = Ok (Jsonify (error_object (str_exc exc)) 500)).
Proof.
  split; [apply well_shaped_iff_answered|].
  intros c exc Hin Hnet.
  destruct (call_inv net decoded c Hin)
    as (t & _ & _ & _ & _ & _ & _ & _ & Hret).
  by rewrite Hret, Hnet.
Qed.

Lemma C7_witness :
  well_shaped scenario_get
  ∧ (∃ r, (handle net_down scenario_get).1 = Ok r)
  ∧ (handle net_down scenario_get).1
    = Ok (Jsonify (error_object "connection refused") 500).
Proof.
  assert (Hshape : well_shaped scenario_get)
    by (vm_compute; repeat split; right; exact I).
  destruct (C7_transport_failures_answered net_down scenario_get)
    as [Hiff Hfail].
  split; [exact Hshape|]. split; [exact (proj1 Hiff Hshape)|].
  apply (Hfail call_get (RaisedBy "ConnectionError" "connection refused")).
  - vm_compute. left. reflexivity.
  - reflexivity.
Defined.

(** C7 as stated fails: with [headers] a string the handler raises before
    the guarded call. *)
Lemma C7_counterexample :
  (handle net_404 payload_text_headers).1
  = Raised (AttributeError "str" "pop")
  ∧ ¬ ∃ r, (handle net_404 payload_text_headers).1 = Ok r.
Proof.
  split; [reflexivity|].
  intros [r Hr]. vm_compute in Hr. discriminate Hr.
Qed.

(** ** Lenient decoding *)

Lemma falsy_payload_fields (v : json) (key : string) :
  truthy v = false → field (Some v) key = None.
Proof.
  intros Hv. destruct v as [ | b | z | f | s | l | m]; try reflexivity.
  cbn [field]. rewrite (empty_dict_falsy m Hv). apply lookup_empty.
Qed.

Lemma falsy_payload_reads_as_object (v : json) :
  truthy v = false → reads_as_object (Some v).
Proof. intros Hv. by destruct v. Qed.

(** C8 (as amended). A payload that is absent or does not decode, and a
    payload that decodes to a false value (null, false, 0, the empty string,
    array or object), is read as the empty object and gets the 400
    validation response; and that response is only ever given when
    [targetUrl] is missing or false. *)
Theorem C8_lenient_decoding net decoded :
  (decoded = None ∨ (∃ v, decoded = Some v ∧ truthy v = false) →
   handle net decoded
   = (Ok (Jsonify (error_object "targetUrl is required") 400), idle))
  ∧ ((handle net decoded).1
     = Ok (Jsonify (error_object "targetUrl is required") 400) →
     blank (field decoded "targetUrl")).
Proof.
  split.
  - intros [-> | (v & -> & Hv)]; [reflexivity|].
    apply blank_target_rejected.
    + by apply falsy_payload_reads_as_object.
    + by rewrite falsy_payload_fields.
    + by rewrite falsy_payload_fields.
  - destruct (handle_served net decoded)
      as [v Hd Hv Hty | v Hobj Hm Hv Hty | Hobj Hm Ht
         | t h Hobj Hm Ht Htv Hh Hhv Hty
         | t resp Hobj Hm Ht Htv Hh Hnet
         | t exc Hobj Hm Ht Htv Hh Hnet]; cbn [fst];
      intros Heq; try discriminate Heq.
    + exact Ht.
    + unfold relayed in Heq.
      destruct (buildable (response_headers (resp_headers resp)));
        discriminate Heq.
Qed.

Lemma C8_witness :
  handle net_404 (Some (JList []))
  = (Ok (Jsonify (error_object "targetUrl is required") 400), idle)
  ∧ blank (field (Some (JList [])) "targetUrl").
Proof.
  destruct (C8_lenient_decoding net_404 (Some (JList []))) as [Hreject Honly].
  assert (Hret : handle net_404 (Some (JList []))
                 = (Ok (Jsonify (error_object "targetUrl is required") 400),
                    idle)).
  { apply Hreject. right. exists (JList []). split; reflexivity. }
  split; [exact Hret|].
  apply Honly. by rewrite Hret.
Defined.

(** C8 as stated fails: the array [[1]] is no object, and the handler
    raises on it instead of answering 400. *)
Lemma C8_counterexample :
  (handle net_404 payload_array).1 = Raised (AttributeError "list" "get")
  ∧ (handle net_404 payload_array).1
    ≠ Ok (Jsonify (error_object "targetUrl is required") 400).
Proof.
  split; [reflexivity|].
  intros Heq. vm_compute in Heq. discriminate Heq.
Qed.

(** ** The method of the outbound call *)

Lemma method_sent_blank (f : option json) :
  blank f → method_sent f = "POST".
Proof.
  destruct f as [v|]; [|reflexivity].
  destruct v; try reflexivity.
  cbn [blank method_sent]. by intros ->.
Qed.

Lemma method_sent_string (s : string) :
  s ≠ EmptyString → method_sent (Some (JStr s)) = upper s.
Proof.
  intros Hs. destruct s as [|a s]; [by destruct Hs | reflexivity].
Qed.

(** C5 (as amended). On every outbound call the method is [POST] when the
    payload's [method] is omitted or false (null, the empty string), and is
    the supplied string in upper case when that string is not empty and
    made of ASCII characters. *)
Theorem C5_method_defaulted_and_uppercased net decoded c :
  In c (calls (handle net decoded).2) →
  (blank (field decoded "method") → call_method c = "POST")
  ∧ (∀ s, field decoded "method" = Some (JStr s) → s ≠ EmptyString →
          ascii_only s → call_method c = upper s).
Proof.
  intros Hin.
  destruct (call_inv net decoded c Hin) as (t & _ & _ & _ & _ & _ & -> & _).
  cbn [call_sent call_method]. split.
  - apply method_sent_blank.
  - intros s -> Hs _. by apply method_sent_string.
Qed.

Lemma C5_witness :
  In call_get (calls (handle net_404 scenario_get).2)
  ∧ ascii_only "get"
  ∧ call_method call_get = upper "get".
Proof.
  assert (Hin : In call_get (calls (handle net_404 scenario_get).2))
    by (vm_compute; left; reflexivity).
  assert (Hascii : ascii_only "get")
    by (unfold ascii_only; cbn; repeat constructor).
  split; [exact Hin|]. split; [exact Hascii|].
  apply (proj2 (C5_method_defaulted_and_uppercased
                  net_404 scenario_get call_get Hin) "get").
  - reflexivity.
  - discriminate.
  - exact Hascii.
Defined.

(** C5 as stated fails: the empty string is a supplied method, and the call
    goes out as [POST], not as the empty string in upper case. *)
Lemma C5_counterexample :
  field payload_empty_method "method" = Some (JStr EmptyString)
  ∧ (∃ c, calls (handle net_404 payload_empty_method).2 = [c]
          ∧ call_method c = "POST"
          ∧ call_method c ≠ upper EmptyString).
Proof.
  split; [reflexivity|].
  exists (OutboundCall "POST" example_url (JDict ∅) 120 None).
  split; [vm_compute; reflexivity|].
  split; [reflexivity | discriminate].
Qed.

(** ** Null method and null headers *)

(** The handler reads an object only through four of its fields, [method]
    and [headers] only through their [or] with the default. *)
Lemma handle_ext net (m1 m2 : gmap string json) :
  m1 !! "targetUrl" = m2 !! "targetUrl" →
  m1 !! "body" = m2 !! "body" →
  py_or (default JNull (m1 !! "method")) (JStr "POST")
  = py_or (default JNull (m2 !! "method")) (JStr "POST") →
  py_or (default JNull (m1 !! "headers")) (JDict ∅)
  = py_or (default JNull (m2 !! "headers")) (JDict ∅) →
  handle net (Some (JDict m1)) = handle net (Some (JDict m2)).
Proof.
  intros Ht Hb Hm Hh. unfold handle, api_proxy.
  cbn [get_json_silent default from_option id].
  rewrite !py_or_dict. unfold mbind, py_bind. cbn [py_get mret py_ret].
  cbn [default] in Hm, Hh.
  by rewrite Ht, Hb, Hm, Hh.
Qed.

(** C10. A [method] supplied as null or as the empty string goes out as
    [POST], and the handler behaves as if it had been omitted; [headers]
    supplied as null go out as the empty mapping, and the handler behaves
    as on [headers: {}]. *)
Theorem C10_null_method_and_headers net :
  (∀ decoded c,
     field decoded "method" = Some JNull
     ∨ field decoded "method" = Some (JStr EmptyString) →
     In c (calls (handle net decoded).2) → call_method c = "POST")
  ∧ (∀ decoded c,
       field decoded "headers" = Some JNull →
       In c (calls (handle net decoded).2) → kw_headers c = JDict ∅)
  ∧ (∀ m v, v = JNull ∨ v = JStr EmptyString →
            handle net (Some (JDict (<["method" := v]> m)))
            = handle net (Some (JDict (delete "method" m))))
  ∧ (∀ m, handle net (Some (JDict (<["headers" := JNull]> m)))
          = handle net (Some (JDict (<["headers" := JDict ∅]> m)))).
Proof.
  split; [|split; [|split]].
  - intros decoded c Hm Hin.
    destruct (call_inv net decoded c Hin) as (t & _ & _ & _ & _ & _ & -> & _).
    cbn [call_sent call_method]. apply method_sent_blank.
    by destruct Hm as [-> | ->].
  - intros decoded c Hh Hin.
    destruct (call_inv net decoded c Hin) as (t & _ & _ & _ & _ & _ & -> & _).
    cbn [call_sent kw_headers]. by rewrite Hh.
  - intros m v Hv. apply handle_ext.
    + by rewrite lookup_insert_ne, lookup_delete_ne.
    + by rewrite lookup_insert_ne, lookup_delete_ne.
    + rewrite lookup_insert_eq, lookup_delete_eq.
      by destruct Hv as [-> | ->].
    + by rewrite lookup_insert_ne, lookup_delete_ne.
  - intros m. apply handle_ext.
    + by rewrite !lookup_insert_ne.
    + by rewrite !lookup_insert_ne.
    + by rewrite !lookup_insert_ne.
    + by rewrite !lookup_insert_eq.
Qed.

Lemma C10_witness :
  In (OutboundCall "POST" example_url (JDict ∅) 120 None)
     (calls (handle net_404 payload_null_method).2)
  ∧ call_method (OutboundCall "POST" example_url (JDict ∅) 120 None) = "POST"
  ∧ In call_put (calls (handle net_404 payload_put).2)
  ∧ kw_headers call_put = JDict ∅.
Proof.
  assert (Hpost : In (OutboundCall "POST" example_url (JDict ∅) 120 None)
                     (calls (handle net_404 payload_null_method).2))
    by (vm_compute; left; reflexivity).
  assert (Hput : In call_put (calls (handle net_404 payload_put).2))
    by (vm_compute; left; reflexivity).
  destruct (C10_null_method_and_headers net_404) as (Hm & Hh & _).
  split; [exact Hpost|]. split.
  - apply (Hm payload_null_method); [left; reflexivity | exact Hpost].
  - split; [exact Hput|].
    apply (Hh payload_put); [reflexivity | exact Hput].
Defined.

(** ** The headers of the outbound call *)

Lemma strip_lookup (hs : gmap string json) (k : string) :
  strip hs !! k = if decide (k ∈ stripped) then None else hs !! k.
Proof.
  unfold strip, stripped. cbn [foldl]. rewrite !lookup_delete.
  destruct (decide (k ∈ ["host"; "Host"; "content-length"; "Content-Length"]))
    as [Hk | Hk]; rewrite !elem_of_cons, elem_of_nil in Hk.
  - destruct Hk as [-> | [-> | [-> | [-> | []]]]]; reflexivity.
  - repeat case_decide; try reflexivity; destruct Hk; auto.
Qed.

(** The four spellings the handler lists never go out. *)
Lemma listed_spellings_stripped net decoded c (k : string) :
  In c (calls (handle net decoded).2) → k ∈ stripped →
  ∃ hs, kw_headers c = JDict hs ∧ hs !! k = None.
Proof.
  intros Hin Hk.
  destruct (call_inv net decoded c Hin) as (t & _ & _ & _ & _ & _ & -> & _).
  eexists. split; [reflexivity|].
  destruct (field decoded "headers") as [[ | | | | | | hs]|];
    cbn [headers_sent]; try apply lookup_empty.
  rewrite strip_lookup. by rewrite decide_True.
Qed.

(** C2 fails on the code: a [HOST] header, which is the header [host] in
    another casing, is still among the headers of the outbound call. *)
Theorem C2_other_casing_is_forwarded net :
  same_name "HOST" "host"
  ∧ ∃ c hs, calls (handle net payload_shouting_host).2 = [c]
            ∧ kw_headers c = JDict hs
            ∧ hs !! "HOST" = Some (JStr "evil.test").
Proof.
  split; [reflexivity|].
  exists (call_sent payload_shouting_host example_url).
  eexists. split; [|split].
  - apply valid_request_is_sent; vm_compute; (exact I || reflexivity).
  - reflexivity.
  - vm_compute. reflexivity.
Qed.

(** * Further properties of the relay *)

(** ** Case of letters *)

Lemma upper_ascii_idemp (c : ascii) : upper_ascii (upper_ascii c) = upper_ascii c.
Proof. destruct c as [[] [] [] [] [] [] [] []]; reflexivity. Qed.

Lemma upper_lower_ascii (c : ascii) : upper_ascii (lower_ascii c) = upper_ascii c.
Proof. destruct c as [[] [] [] [] [] [] [] []]; reflexivity. Qed.

Lemma upper_idemp (s : string) : upper (upper s) = upper s.
Proof.
  unfold upper. induction s as [|c s IH]; [reflexivity|].
  cbn [str_map]. by rewrite upper_ascii_idemp, IH.
Qed.

Lemma upper_lower (s : string) : upper (lower s) = upper s.
Proof.
  unfold upper, lower. induction s as [|c s IH]; [reflexivity|].
  cbn [str_map]. by rewrite upper_lower_ascii, IH.
Qed.

Lemma same_name_upper (a b : string) : same_name a b → upper a = upper b.
Proof.
  unfold same_name. intros Hab.
  by rewrite <- (upper_lower a), Hab, upper_lower.
Qed.

Lemma method_sent_upper (f : option json) :
  upper (method_sent f) = method_sent f.
Proof.
  destruct f as [[ | | | | s | | ]|]; try reflexivity.
  cbn [method_sent]. destruct (truthy (JStr s)); [apply upper_idemp | reflexivity].
Qed.

(** ** One request, one call *)

(** X1. Serving one request makes at most one outbound call: nothing is
    retried, whatever the target answers. *)
Theorem X1_at_most_one_call net decoded :
  (length (calls (handle net decoded).2) ≤ 1)%nat.
Proof.
  destruct (calls (handle net decoded).2) as [|c rest] eqn:Hcalls;
    [cbn; lia|].
  destruct (call_inv net decoded c) as (_ & _ & _ & _ & _ & _ & _ & Hone & _).
  { rewrite Hcalls. by left. }
  rewrite Hcalls in Hone. injection Hone as ->. cbn. lia.
Qed.

(** X2. The handler writes to the console exactly when it answers 500:
    something raised inside its [try], the outbound call or the building of
    the response. It then writes the single line
    [[ERROR] Proxy Error: <message>], with the message of the reply. On
    every other path nothing is written. *)
Theorem X2_console_line_with_every_500 net decoded :
  (∃ msg,
     (handle net decoded).1 = Ok (Jsonify (error_object msg) 500)
     ∧ stdout (handle net decoded).2 = ["[ERROR] Proxy Error: " +:+ msg])
  ∨ ((∀ obj, (handle net decoded).1 ≠ Ok (Jsonify obj 500))
     ∧ stdout (handle net decoded).2 = []).
Proof.
  destruct (handle_served net decoded)
    as [v Hd Hv Hty | v Hobj Hm Hv Hty | Hobj Hm Ht
       | t h Hobj Hm Ht Htv Hh Hhv Hty
       | t resp Hobj Hm Ht Htv Hh Hnet
       | t exc Hobj Hm Ht Htv Hh Hnet];
    cbn [fst snd stdout idle];
    try (right; split; [intros obj; discriminate | reflexivity]).
  - unfold relayed, relayed_log.
    destruct (buildable (response_headers (resp_headers resp))).
    + right. split; [intros obj; discriminate | reflexivity].
    + left. by eexists.
  - left. by exists (str_exc exc).
Qed.

(** ** What goes out *)

(** X4. When the payload's [headers] are an object, the outbound call
    carries those headers with their values, less exactly the four
    spellings [host], [Host], [content-length], [Content-Length]. *)
Theorem X4_outbound_headers net decoded c (hs : gmap string json) :
  In c (calls (handle net decoded).2) →
  field decoded "headers" = Some (JDict hs) →
  ∃ sent : gmap string json,
    kw_headers c = JDict sent
    ∧ ∀ k, sent !! k = if decide (k ∈ stripped) then None else hs !! k.
Proof.
  intros Hin Hh.
  destruct (call_inv net decoded c Hin) as (t & _ & _ & _ & _ & _ & -> & _).
  exists (strip hs). split.
  - cbn [call_sent kw_headers]. by rewrite Hh.
  - apply strip_lookup.
Qed.

(** X5. The URL of the outbound call is the payload's [targetUrl] as it
    was supplied, a true value of whatever JSON type. *)
Theorem X5_target_passed_through net decoded c :
  In c (calls (handle net decoded).2) →
  field decoded "targetUrl" = Some (call_url c) ∧ truthy (call_url c) = true.
Proof.
  intros Hin.
  by destruct (call_inv net decoded c Hin) as (t & _ & _ & Ht & Htv & _ & -> & _).
Qed.

(** X6. The method of an outbound call has no lower-case letter left:
    putting it in upper case again changes nothing. *)
Theorem X6_method_is_upper_case net decoded c :
  In c (calls (handle net decoded).2) → upper (call_method c) = call_method c.
Proof.
  intros Hin.
  destruct (call_inv net decoded c Hin) as (t & _ & _ & _ & _ & _ & -> & _).
  apply method_sent_upper.
Qed.

(** X7. A method that spells [get] in any casing goes out as [GET] and
    the call carries no body, whatever [body] the payload has. *)
Theorem X7_get_in_any_casing net decoded c (s : string) :
  In c (calls (handle net decoded).2) →
  field decoded "method" = Some (JStr s) → same_name s "get" →
  call_method c = "GET" ∧ kw_json c = None.
Proof.
  intros Hin Hm Hs.
  destruct (call_inv net decoded c Hin) as (t & _ & _ & _ & _ & _ & -> & _).
  assert (Hsent : method_sent (field decoded "method") = "GET").
  { rewrite Hm. rewrite method_sent_string.
    - by rewrite (same_name_upper s "get" Hs).
    - intros ->. discriminate Hs. }
  cbn [call_sent call_method kw_json]. rewrite Hsent. split; [reflexivity|].
  by destruct (field decoded "body").
Qed.

Lemma X4_witness :
  In call_with_headers (calls (handle net_404 payload_with_headers).2)
  ∧ ∃ sent : gmap string json,
      kw_headers call_with_headers = JDict sent
      ∧ sent !! "Host" = None ∧ sent !! "X-Api-Key" = Some (JStr "k").
Proof.
  assert (Hin : In call_with_headers
                   (calls (handle net_404 payload_with_headers).2))
    by (vm_compute; left; reflexivity).
  split; [exact Hin|].
  destruct (X4_outbound_headers net_404 payload_with_headers call_with_headers
              {[ "Host" := JStr "a.test"; "X-Api-Key" := JStr "k" ]} Hin)
    as (sent & Hsent & Hlook); [vm_compute; reflexivity|].
  exists sent. split; [exact Hsent|].
  split; rewrite Hlook; vm_compute; reflexivity.
Defined.

Lemma X5_witness :
  In call_get (calls (handle net_404 scenario_get).2)
  ∧ field scenario_get "targetUrl" = Some (call_url call_get).
Proof.
  assert (Hin : In call_get (calls (handle net_404 scenario_get).2))
    by (vm_compute; left; reflexivity).
  split; [exact Hin|].
  exact (proj1 (X5_target_passed_through net_404 scenario_get call_get Hin)).
Defined.

Lemma X6_witness :
  In call_put (calls (handle net_404 payload_put).2)
  ∧ upper (call_method call_put) = call_method call_put.
Proof.
  assert (Hin : In call_put (calls (handle net_404 payload_put).2))
    by (vm_compute; left; reflexivity).
  split; [exact Hin|].
  exact (X6_method_is_upper_case net_404 payload_put call_put Hin).
Defined.

Lemma X7_witness :
  In call_get (calls (handle net_404 payload_mixed_get).2)
  ∧ same_name "gEt" "get"
  ∧ call_method call_get = "GET" ∧ kw_json call_get = None.
Proof.
  assert (Hin : In call_get (calls (handle net_404 payload_mixed_get).2))
    by (vm_compute; left; reflexivity).
  split; [exact Hin|]. split; [reflexivity|].
  apply (X7_get_in_any_casing net_404 payload_mixed_get call_get "gEt" Hin);
    reflexivity.
Defined.

(** ** Where an ill-typed payload stops the handler *)

(** X8. A payload that decodes to a true value other than an object (a
    non-empty array or string, a non-zero number, [true]) makes the handler
    raise the [AttributeError] of [data.get]; nothing is sent or printed. *)
Theorem X8_non_object_payload net (v : json) :
  truthy v = true → type_name v ≠ "dict" →
  handle net (Some v) = (Raised (AttributeError (type_name v) "get"), idle).
Proof.
  intros Hv Hty. unfold handle, api_proxy.
  rewrite (data_not_mapping v Hv Hty).
  destruct v; try reflexivity. by destruct Hty.
Qed.

Lemma X8_witness :
  handle net_404 payload_array = (Raised (AttributeError "list" "get"), idle).
Proof.
  apply (X8_non_object_payload net_404 (JList [JInt 1]));
    [reflexivity | discriminate].
Defined.

(** X9. The method is put in upper case before the target is looked at: a
    [method] that is true and no string makes the handler raise the
    [AttributeError] of [.upper()], with or without a [targetUrl], and
    nothing is sent. *)
Theorem X9_method_checked_first net decoded (v : json) :
  reads_as_object decoded →
  field decoded "method" = Some v → truthy v = true → type_name v ≠ "str" →
  handle net decoded = (Raised (AttributeError (type_name v) "upper"), idle).
Proof.
  intros Hobj Hm Hv Hty.
  assert (Hbad : ¬ string_or_blank (field decoded "method")).
  { rewrite Hm. intros Hs. destruct Hty. by apply string_or_blank_truthy. }
  pose proof (handle_served net decoded) as Hs.
  inversion Hs as [v' Hd Hv' Hty' | v' _ Hm' _ _ | _ Hm' _
                  | t h _ Hm' _ _ _ _ _
                  | t resp _ Hm' _ _ _ _
                  | t exc _ Hm' _ _ _ _]; try by destruct Hbad.
  - subst decoded. destruct Hty'. by apply reads_as_object_truthy.
  - rewrite Hm in Hm'. by injection Hm' as <-.
Qed.

Lemma X9_witness :
  handle net_404 payload_list_method
  = (Raised (AttributeError "list" "upper"), idle).
Proof.
  apply (X9_method_checked_first net_404 payload_list_method
           (JList [JStr "get"]));
    [exact I | vm_compute; reflexivity | reflexivity | discriminate].
Defined.

(** X10. The headers are touched only once a target is there: with a true
    [targetUrl], [headers] that are true and no object make the handler
    raise out of [headers.pop] (a [TypeError] for an array, an
    [AttributeError] otherwise) before anything is sent. *)
Theorem X10_headers_checked_after_target net decoded (t h : json) :
  reads_as_object decoded →
  string_or_blank (field decoded "method") →
  field decoded "targetUrl" = Some t → truthy t = true →
  field decoded "headers" = Some h → truthy h = true → type_name h ≠ "dict" →
  handle net decoded = (Raised (pop_error h), idle).
Proof.
  intros Hobj Hm Ht Htv Hh Hhv Hty.
  assert (Hbad : ¬ object_or_blank (field decoded "headers")).
  { rewrite Hh. intros Hs. destruct Hty. by apply object_or_blank_truthy. }
  pose proof (handle_served net decoded) as Hs.
  inversion Hs as [v' Hd Hv' Hty' | v' _ Hm' Hv' Hty' | _ _ Ht'
                  | t' h' _ _ _ _ Hh' _ _
                  | t' resp _ _ _ _ Hh' _
                  | t' exc _ _ _ _ Hh' _]; try by destruct Hbad.
  - subst decoded. destruct Hty'. by apply reads_as_object_truthy.
  - rewrite Hm' in Hm. destruct Hty'. by apply string_or_blank_truthy.
  - rewrite Ht in Ht'. destruct (blank_truthy t Ht' Htv).
  - rewrite Hh in Hh'. by injection Hh' as <-.
Qed.

Lemma X10_witness :
  handle net_404 payload_list_headers
  = (Raised (TypeError "pop expected at most 1 argument, got 2"), idle).
Proof.
  apply (X10_headers_checked_after_target net_404 payload_list_headers
           example_url (JList [JInt 1]));
    first [exact I | discriminate | vm_compute; reflexivity].
Defined.

(** ** What a reply says about the call *)

(** X11. The reply tells what happened on the wire. A relayed [Response]
    is built from the one call made, answered, with its status, body and
    filtered headers. A JSON reply of the handler is either the 400
    validation error, with no call made, or a 500 error after the one call
    made: the call raised, and the reply has its message, or it was
    answered with headers from which no response could be built. An
    exception leaving the handler means that nothing was sent and nothing
    printed. *)
Theorem X11_reply_reflects_call net decoded :
  match (handle net decoded).1 with
  | Ok (Response data status hdrs) =>
      ∃ c resp, calls (handle net decoded).2 = [c] ∧ net c = Responds resp
                ∧ data = content resp ∧ status = status_code resp
                ∧ hdrs = response_headers (resp_headers resp)
                ∧ buildable hdrs = true
  | Ok (Jsonify obj status) =>
      (status = 400 ∧ obj = error_object "targetUrl is required"
       ∧ calls (handle net decoded).2 = [])
      ∨ (status = 500
         ∧ ∃ c, calls (handle net decoded).2 = [c]
                ∧ ((∃ exc, net c = Fails exc
                           ∧ obj = error_object (str_exc exc))
                   ∨ (∃ resp msg, net c = Responds resp
                                  ∧ buildable (response_headers
                                                 (resp_headers resp)) = false
                                  ∧ obj = error_object msg)))
  | Raised _ => (handle net decoded).2 = idle
  end.
Proof.
  destruct (handle_served net decoded)
    as [v Hd Hv Hty | v Hobj Hm Hv Hty | Hobj Hm Ht
       | t h Hobj Hm Ht Htv Hh Hhv Hty
       | t resp Hobj Hm Ht Htv Hh Hnet
       | t exc Hobj Hm Ht Htv Hh Hnet];
    cbn [fst snd calls]; try reflexivity.
  - left. by repeat split.
  - unfold relayed.
    destruct (buildable (response_headers (resp_headers resp))) eqn:Hb.
    + by exists (call_sent decoded t), resp.
    + right. split; [reflexivity|]. exists (call_sent decoded t).
      split; [reflexivity|]. right. by eexists resp, _.
  - right. split; [reflexivity|]. exists (call_sent decoded t).
    split; [reflexivity|]. left. by exists exc.
Qed.

(** ** Fields the handler does not know *)

(** X12. The handler reads four fields of the object, [targetUrl],
    [method], [headers] and [body]: two objects that agree on them are
    served alike, whatever else they hold. *)
Theorem X12_other_fields_ignored net (m1 m2 : gmap string json) :
  (∀ k, k ∈ ["targetUrl"; "method"; "headers"; "body"] → m1 !! k = m2 !! k) →
  handle net (Some (JDict m1)) = handle net (Some (JDict m2)).
Proof.
  intros Hsame.
  apply handle_ext; rewrite Hsame; try reflexivity;
    rewrite !elem_of_cons; auto.
Qed.

Lemma X12_witness :
  handle net_404 scenario_get_tagged = handle net_404 scenario_get.
Proof.
  apply X12_other_fields_ignored.
  intros k Hk. rewrite !elem_of_cons, elem_of_nil in Hk.
  destruct Hk as [-> | [-> | [-> | [-> | []]]]]; vm_compute; reflexivity.
Defined.

(** * The bootstrap *)

Example main_ready :
  main machine_ready [] = (Returns 0, trace_serving 50123).
Proof. vm_compute. reflexivity. Qed.

Example main_incomplete_names :
  In (Print "[ERROR] 缺少必要文件: api.js, styles.css")
     (main machine_incomplete []).2.
Proof. vm_compute. right. left. reflexivity. Qed.

(** ** The two runs of [main] *)

Lemma missing_files_spec (m : machine) (f : string) :
  In f (missing_files m) ↔ In f required_files ∧ path_exists m f = false.
Proof.
  unfold missing_files. rewrite filter_In.
  destruct (path_exists m f); cbn [negb]; intuition congruence.
Qed.

Lemma missing_files_nonempty (m : machine) :
  (∃ f, In f required_files ∧ path_exists m f = false) ↔ missing_files m ≠ [].
Proof.
  split.
  - intros (f & Hf). apply missing_files_spec in Hf.
    intros Hnil. by rewrite Hnil in Hf.
  - destruct (missing_files m) as [|f rest] eqn:Hm; [by intros []|].
    intros _. exists f. apply missing_files_spec. rewrite Hm. by left.
Qed.

Lemma main_missing (m : machine) :
  missing_files m ≠ [] →
  main m []
  = match input m 0 with
    | Returns _ => (Returns 1, trace_missing m)
    | Throws s => main_handler m s (trace_missing m)
    end.
Proof.
  unfold trace_missing, main, missing_files.
  destruct (List.filter (λ f, negb (path_exists m f)) required_files)
    as [|f rest]; [by intros []|]. intros _.
  unfold try_except_both, print_banner, print, py_input, effect,
    mbind, io_bind, mret, io_ret.
  cbn [length Nat.eqb negb app prompts_before List.filter].
  destruct (input m 0) as [line | [ | code | exc]]; cbn; try reflexivity.
  by destruct (input m 1) as [line | s].
Qed.

Lemma main_complete (m : machine) :
  missing_files m = [] →
  main m []
  = match find_free_port m with
    | Returns port =>
        match app_run m "127.0.0.1" port with
        | Returns _ => (Returns 0, trace_serving port)
        | Throws s => main_handler m s (trace_serving port)
        end
    | Throws s => main_handler m s [Print banner; FindFreePort]
    end.
Proof.
  unfold main, missing_files. intros ->.
  unfold try_except_both, print_banner, print, py_input, open_browser, effect,
    mbind, io_bind, mret, io_ret.
  cbn [length Nat.eqb negb app].
  destruct (find_free_port m) as [port | [ | code | exc]]; cbn;
    [| reflexivity | reflexivity | by destruct (input m 0)].
  destruct (app_run m "127.0.0.1" port) as [[] | [ | code | exc]]; cbn;
    [reflexivity | reflexivity | reflexivity | by destruct (input m 0)].
Qed.

Lemma main_handler_trace (m : machine) (s : signal) (t : list event) :
  ∃ tail, (main_handler m s t).2 = (t ++ tail)%list
          ∧ ∀ e, In e tail → is_startup e = false.
Proof.
  destruct s as [ | code | exc]; cbn [main_handler snd].
  - eexists. split; [reflexivity|].
    intros e Hin. cbn in Hin. intuition; by subst e.
  - exists []. split; [by rewrite app_nil_r | by intros e []].
  - eexists. split; [reflexivity|].
    intros e Hin. cbn in Hin. intuition; by subst e.
Qed.

Lemma main_missing_quiet (m : machine) :
  missing_files m ≠ [] →
  (∃ rest, (main m []).2 = (trace_missing m ++ rest)%list)
  ∧ ∀ e, In e (main m []).2 → is_startup e = false.
Proof.
  intros Hmiss. rewrite (main_missing m Hmiss).
  assert (Hquiet : ∀ e, In e (trace_missing m) → is_startup e = false).
  { intros e Hin. cbn in Hin. intuition; by subst e. }
  destruct (input m 0) as [line | s].
  - split; [exists []; by rewrite app_nil_r | exact Hquiet].
  - destruct (main_handler_trace m s (trace_missing m)) as (tail & -> & Htail).
    split; [by exists tail|].
    intros e Hin. apply in_app_or in Hin. destruct Hin; auto.
Qed.

(** ** Missing files *)

(** X13. When one of the five required files is not there, [main] reports
    the missing names, in the order of its list and joined by a comma and a
    space, asks for the return key, and starts nothing: no port is probed,
    no browser thread started, no server run. Once the key is pressed it
    returns 1. *)
Theorem X13_missing_files_start_nothing (m : machine) :
  (∃ f, In f required_files ∧ path_exists m f = false) →
  (∃ rest, (main m []).2 = (trace_missing m ++ rest)%list)
  ∧ (∀ e, In e (main m []).2 → is_startup e = false)
  ∧ (∀ line, input m 0 = Returns line →
             main m [] = (Returns 1, trace_missing m)).
Proof.
  intros Hmiss. apply missing_files_nonempty in Hmiss.
  destruct (main_missing_quiet m Hmiss) as [Hshape Hquiet].
  split; [exact Hshape|]. split; [exact Hquiet|].
  intros line Hline. by rewrite (main_missing m Hmiss), Hline.
Qed.

Lemma X13_witness :
  (∃ f, In f required_files ∧ path_exists machine_incomplete f = false)
  ∧ main machine_incomplete []
    = (Returns 1,
       [Print banner;
        Print "[ERROR] 缺少必要文件: api.js, styles.css";
        Print "[HINT] 请确认所有前端文件和 exe 在同一目录中。";
        Input "按回车键退出..."]).
Proof.
  assert (Hmiss : ∃ f, In f required_files
                       ∧ path_exists machine_incomplete f = false).
  { exists "api.js". split; [vm_compute; tauto | reflexivity]. }
  split; [exact Hmiss|].
  destruct (X13_missing_files_start_nothing machine_incomplete Hmiss)
    as (_ & _ & Hret).
  exact (Hret EmptyString eq_refl).
Defined.

(** ** The server *)

(** X14. When [main] runs the server, it does so on the loopback address
    [127.0.0.1], with debugging and the reloader off and threading on, on
    the port that [find_free_port] gave, after all five required files were
    found; and the browser thread was started just before, for the URL of
    that same port. Nothing is started afterwards. *)
Theorem X14_server_run (m : machine) host port debug threaded reloader :
  In (AppRun host port debug threaded reloader) (main m []).2 →
  host = "127.0.0.1" ∧ debug = false ∧ threaded = true ∧ reloader = false
  ∧ find_free_port m = Returns port
  ∧ (∀ f, In f required_files → path_exists m f = true)
  ∧ ∃ after, (main m []).2 = (trace_serving port ++ after)%list
             ∧ ∀ e, In e after → is_startup e = false.
Proof.
  intros Hin.
  destruct (missing_files m) as [|f0 rest0] eqn:Hmiss.
  2: { assert (Hne : missing_files m ≠ []) by (by rewrite Hmiss).
       destruct (main_missing_quiet m Hne) as [_ Hquiet].
       apply Hquiet in Hin. discriminate Hin. }
  rewrite (main_complete m Hmiss) in Hin |- *.
  assert (Hfiles : ∀ f, In f required_files → path_exists m f = true).
  { intros f Hf. destruct (path_exists m f) eqn:Hex; [reflexivity|].
    assert (Hfm : In f (missing_files m)) by (by apply missing_files_spec).
    by rewrite Hmiss in Hfm. }
  destruct (find_free_port m) as [p | s].
  - assert (Hshape : ∃ after,
        (match app_run m "127.0.0.1" p with
         | Returns _ => (Returns 0, trace_serving p)
         | Throws s => main_handler m s (trace_serving p)
         end).2 = (trace_serving p ++ after)%list
        ∧ ∀ e, In e after → is_startup e = false).
    { destruct (app_run m "127.0.0.1" p) as [[] | s].
      - exists []. split; [by rewrite app_nil_r | by intros e []].
      - apply main_handler_trace. }
    destruct Hshape as (after & Htrace & Hafter).
    rewrite Htrace in Hin |- *.
    apply in_app_or in Hin. destruct Hin as [Hin | Hin].
    + cbn in Hin.
      repeat (destruct Hin as [Hin | Hin]; [try discriminate Hin|]);
        [|destruct Hin].
      injection Hin as <- <- <- <- <-.
      repeat split; try reflexivity; [exact Hfiles|]. by exists after.
    + apply Hafter in Hin. discriminate Hin.
  - destruct (main_handler_trace m s [Print banner; FindFreePort])
      as (tail & Htrace & Htail).
    rewrite Htrace in Hin. apply in_app_or in Hin. destruct Hin as [Hin | Hin].
    + cbn in Hin. destruct Hin as [Hin | [Hin | []]]; discriminate Hin.
    + apply Htail in Hin. discriminate Hin.
Qed.

Lemma X14_witness :
  In (AppRun "127.0.0.1" 50123 false true false) (main machine_port_taken []).2
  ∧ find_free_port machine_port_taken = Returns 50123
  ∧ ∃ after, (main machine_port_taken []).2
             = (trace_serving 50123 ++ after)%list.
Proof.
  assert (Hin : In (AppRun "127.0.0.1" 50123 false true false)
                   (main machine_port_taken []).2)
    by (vm_compute; do 9 right; left; reflexivity).
  split; [exact Hin|].
  destruct (X14_server_run machine_port_taken _ _ _ _ _ Hin)
    as (_ & _ & _ & _ & Hport & _ & after & Htrace & _).
  split; [exact Hport|]. by exists after.
Defined.

(** ** Exit codes *)

(** X15. When [main] returns, it returns 0 or 1: 0 when the server ran and
    stopped without raising, or when a [KeyboardInterrupt] was caught, the
    farewell being its last line; 1 only after the closing prompt for the
    return key. What leaves [main] otherwise is either a [SystemExit] that
    a call inside the [try] raised, which neither clause catches and after
    which nothing is printed or asked, or what the closing prompt raises
    once a startup error was reported. *)
Theorem X15_exit_codes (m : machine) :
  match (main m []).1 with
  | Returns code =>
      (code = 0
       ∧ ((∃ port, (main m []).2 = trace_serving port)
          ∨ last (main m []).2 = Some (Print farewell)))
      ∨ (code = 1 ∧ last (main m []).2 = Some (Input prompt_exit))
  | Throws s =>
      (∃ code, s = SystemExit code
               ∧ ((main m []).2 = trace_missing m
                  ∨ (main m []).2 = [Print banner; FindFreePort]
                  ∨ ∃ port, (main m []).2 = trace_serving port))
      ∨ (last (main m []).2 = Some (Input prompt_exit)
         ∧ (∃ exc, In (Print (startup_failed exc)) (main m []).2)
         ∧ ∃ k, input m k = Throws s)
  end.
Proof.
  assert (Hhandler : ∀ s t,
    match (main_handler m s t).1 with
    | Returns code =>
        (code = 0 ∧ last (main_handler m s t).2 = Some (Print farewell))
        ∨ (code = 1 ∧ last (main_handler m s t).2 = Some (Input prompt_exit))
    | Throws s' =>
        (∃ code, s' = SystemExit code ∧ (main_handler m s t).2 = t)
        ∨ (last (main_handler m s t).2 = Some (Input prompt_exit)
           ∧ (∃ exc, In (Print (startup_failed exc)) (main_handler m s t).2)
           ∧ ∃ k, input m k = Throws s')
    end).
  { intros [ | code | exc] t; cbn [main_handler fst snd].
    - left. split; [reflexivity|]. by rewrite last_snoc.
    - left. by exists code.
    - assert (Hlast : last (t ++ [Print (startup_failed exc);
                                  Input prompt_exit])%list
                      = Some (Input prompt_exit)).
      { change [Print (startup_failed exc); Input prompt_exit]
          with ([Print (startup_failed exc)] ++ [Input prompt_exit])%list.
        by rewrite app_assoc, last_snoc. }
      destruct (input m (prompts_before t)) as [line | s'] eqn:Hinput.
      + right. by split.
      + right. split; [exact Hlast|]. split; [|by eexists].
        exists exc. apply in_or_app. right. by left. }
  destruct (missing_files m) as [|f0 rest0] eqn:Hmiss.
  - rewrite (main_complete m Hmiss).
    destruct (find_free_port m) as [port | s].
    + destruct (app_run m "127.0.0.1" port) as [[] | s].
      * left. split; [reflexivity|]. left. by exists port.
      * specialize (Hhandler s (trace_serving port)).
        destruct (main_handler m s (trace_serving port)) as [[code | s'] t];
          cbn [fst snd] in *.
        -- destruct Hhandler as [[-> H] | [-> H]]; [left | right]; auto.
        -- destruct Hhandler as [(code & -> & ->) | H]; [left | by right].
           exists code. split; [reflexivity|]. right. right. by exists port.
    + specialize (Hhandler s [Print banner; FindFreePort]).
      destruct (main_handler m s [Print banner; FindFreePort])
        as [[code | s'] t]; cbn [fst snd] in *.
      * destruct Hhandler as [[-> H] | [-> H]]; [left | right]; auto.
      * destruct Hhandler as [(code & -> & ->) | H]; [left | by right].
        exists code. split; [reflexivity|]. right. by left.
  - assert (Hne : missing_files m ≠ []) by (by rewrite Hmiss).
    rewrite (main_missing m Hne).
    destruct (input m 0) as [line | s].
    + right. by split.
    + specialize (Hhandler s (trace_missing m)).
      destruct (main_handler m s (trace_missing m)) as [[code | s'] t];
        cbn [fst snd] in *.
      * destruct Hhandler as [[-> H] | [-> H]]; [left | right]; auto.
      * destruct Hhandler as [(code & -> & ->) | H]; [left | by right].
        exists code. split; [reflexivity|]. by left.
Qed.

(** ** The browser thread *)

(** One guarded launch, once the sleep has returned: the launcher's result
    is dropped, its [Exception] is reported in two lines, any other signal
    goes through. *)
Lemma guarded_launch_run {A} (e : event) (o : outcome A)
    (url : string) (t : list event) :
  try_except_Exception
    (effect e o;; mret tt)
    (λ exc,
       print ("[WARN] 无法自动打开浏览器: " +:+ str_exc exc);;
       print ("[INFO] 请手动访问: " +:+ url)) t
  = (match o with
     | Returns _ | Throws (Exception _) => Returns tt
     | Throws s => Throws s
     end,
     (t ++ e ::
        match o with
        | Throws (Exception exc) =>
            [Print ("[WARN] 无法自动打开浏览器: " +:+ str_exc exc);
             Print ("[INFO] 请手动访问: " +:+ url)]
        | _ => []
        end)%list).
Proof.
  destruct o as [a | [ | code | exc]]; try reflexivity.
  unfold try_except_Exception, effect, print, mbind, io_bind, mret, io_ret.
  cbn. unfold effect. by rewrite <- !app_assoc.
Qed.

Lemma launch_tail_quiet {A} (o : outcome A) (url : string) (e : event) :
  In e match o with
       | Throws (Exception exc) =>
           [Print ("[WARN] 无法自动打开浏览器: " +:+ str_exc exc);
            Print ("[INFO] 请手动访问: " +:+ url)]
       | _ => []
       end →
  is_launch e = false.
Proof.
  destruct o as [a | [ | code | exc]]; cbn; intuition; by subst e.
Qed.

(** [_open] stops at a sleep that raises, and goes on to its guarded part
    after one that returns. *)
Lemma _open_sleep (m : machine) (url : string) (delay : spec_float) :
  _open m url delay []
  = match time_sleep m delay with
    | Throws s => (Throws s, [Sleep delay])
    | Returns _ =>
        try_except_Exception
          (let system := platform_system m in
           if String.eqb system "Darwin" then
             let command := "open " +:+ dquote +:+ url +:+ dquote in
             effect (OsSystem command) (os_system m command);; mret tt
           else if String.eqb system "Windows" then
             let command :=
               "start " +:+ dquote +:+ dquote +:+ " " +:+ dquote +:+ url
                 +:+ dquote in
             effect (OsSystem command) (os_system m command);; mret tt
           else if String.eqb system "Linux" then
             let command := "xdg-open " +:+ dquote +:+ url +:+ dquote in
             effect (OsSystem command) (os_system m command);; mret tt
           else
             effect (WebbrowserOpen url) (webbrowser_open m url);; mret tt)
          (λ exc,
             print ("[WARN] 无法自动打开浏览器: " +:+ str_exc exc);;
             print ("[INFO] 请手动访问: " +:+ url))
          [Sleep delay]
    end.
Proof.
  unfold _open. unfold mbind at 1. unfold io_bind at 1. unfold effect at 1.
  cbn [app]. by destruct (time_sleep m delay) as [[] | s].
Qed.

(** X16. When [time.sleep(delay)] raises, [_open] ends there, with that
    exception and no launch. When it returns, [_open] makes exactly one
    attempt to launch a browser on the URL: [webbrowser.open(url)] on a
    platform that is not Darwin, Windows or Linux, and there a shell
    command that ends with the URL between double quotes. Nothing else is
    launched. *)
Theorem X16_one_launch (m : machine) (url : string) (delay : spec_float) :
  (∀ s, time_sleep m delay = Throws s →
        _open m url delay [] = (Throws s, [Sleep delay]))
  ∧ (time_sleep m delay = Returns tt →
     ∃ launch tail,
       (_open m url delay []).2 = Sleep delay :: launch :: tail
       ∧ (∀ e, In e tail → is_launch e = false)
       ∧ (if decide (platform_system m ∈ ["Darwin"; "Windows"; "Linux"])
          then ∃ prefix,
                 launch = OsSystem (prefix +:+ dquote +:+ url +:+ dquote)
          else launch = WebbrowserOpen url)).
Proof.
  rewrite _open_sleep. split; [by intros s ->|]. intros ->.
  cbv beta iota zeta.
  destruct (String.eqb_spec (platform_system m) "Darwin") as [-> | Hd];
    [|destruct (String.eqb_spec (platform_system m) "Windows") as [-> | Hw];
      [|destruct (String.eqb_spec (platform_system m) "Linux") as [-> | Hl]]];
    cbv beta iota zeta; rewrite guarded_launch_run; cbn [snd app];
    eexists _, _; (split; [reflexivity|]);
    (split; [apply launch_tail_quiet|]).
  - by exists "open ".
  - by exists ("start " +:+ dquote +:+ dquote +:+ " ").
  - by exists "xdg-open ".
  - rewrite decide_False; [reflexivity|].
    rewrite !elem_of_cons, elem_of_nil. tauto.
Qed.



Lemma X16_witness :
  time_sleep machine_ready delay_default = Returns tt
  ∧ ∃ prefix,
      (_open machine_ready (local_url 50123) delay_default []).2 !! 1%nat
      = Some (OsSystem (prefix +:+ dquote +:+ local_url 50123 +:+ dquote)).
Proof.
  split; [reflexivity|].
  destruct (proj2 (X16_one_launch machine_ready (local_url 50123)
                     delay_default) eq_refl)
    as (launch & tail & Htrace & _ & Hlaunch).
  rewrite decide_True in Hlaunch
    by (cbn; rewrite !elem_of_cons; auto).
  destruct Hlaunch as (prefix & ->).
  exists prefix. by rewrite Htrace.
Defined.


(** ** The local URL *)

Lemma no_dquote_in_uint (d : Decimal.uint) :
  ¬ In "034"%char (list_ascii_of_string (NilEmpty.string_of_uint d)).
Proof.
  induction d; cbn; [tauto|..]; intros [Hc | Hin]; try discriminate Hc; auto.
Qed.

Lemma no_dquote_in_str_int (n : Z) :
  ¬ In "034"%char (list_ascii_of_string (str_int n)).
Proof.
  unfold str_int.
  destruct (Z.to_int n) as [d | d]; cbn [NilZero.string_of_int].
  - destruct d; try apply (no_dquote_in_uint (_ d)).
    cbn. intros [Hc | []]. discriminate Hc.
  - cbn. intros [Hc | Hin]; [discriminate Hc|]. revert Hin.
    destruct d; try apply (no_dquote_in_uint (_ d)).
    cbn. intros [Hc | []]. discriminate Hc.
Qed.

Lemma str_int_inj (p q : Z) : str_int p = str_int q → p = q.
Proof.
  unfold str_int. intros Heq.
  apply DecimalZ.to_int_inj.
  assert (Hnil : ∀ n, Z.to_int n ≠ Decimal.Pos Decimal.Nil
                      ∧ Z.to_int n ≠ Decimal.Neg Decimal.Nil).
  { intros [|n|n]; split; cbn; try discriminate;
      intros [= Hn]; by apply DecimalPos.Unsigned.to_uint_nonnil in Hn. }
  destruct (Hnil p) as [Hp1 Hp2]. destruct (Hnil q) as [Hq1 Hq2].
  pose proof (NilZero.isi _ Hp1 Hp2) as Hp.
  pose proof (NilZero.isi _ Hq1 Hq2) as Hq.
  rewrite Heq in Hp. rewrite Hp in Hq. by injection Hq.
Qed.

(** X18. The local URL names its port: two ports have the same URL only
    when they are the same port. *)
Theorem X18_url_names_the_port (p q : Z) : local_url p = local_url q → p = q.
Proof.
  unfold local_url. intros Heq. cbn [append] in Heq.
  apply str_int_inj. by injection Heq.
Qed.

Lemma X18_witness : local_url 443 = local_url 443 ∧ 443 = 443.
Proof.
  split; [reflexivity|].
  apply (X18_url_names_the_port 443 443). reflexivity.
Defined.

(** X19. The local URL of a port holds no double quote, so that between
    the quotes of the commands of [_open] it cannot end the quoting. *)
Theorem X19_url_has_no_quote (port : Z) :
  Forall (λ c, c ≠ "034"%char) (list_ascii_of_string (local_url port)).
Proof.
  apply Forall_forall. intros c Hin ->. revert Hin.
  unfold local_url. cbn [append list_ascii_of_string].
  intros Hin. apply list_elem_of_In in Hin. cbn in Hin.
  repeat (destruct Hin as [Hc | Hin]; [discriminate Hc|]).
  by apply no_dquote_in_str_int in Hin.
Qed.
